(** * DSPy demo applications: resume analyser and movie reviewer

    A shallow embedding of [ResumeAnalyzer.py] and
    [movieReviewandRecommendation.py]: the response-normalisation helpers
    ([_parse_score], [_parse_rating], [_format_list], [_format_genres],
    [_rate_quality]), the two [forward] pipelines and the input check of
    [main], followed by the properties of the design document that can be
    stated about them.

    Conventions of the embedding.
    - A Python [str] is a Rocq [string]. Whitespace, decimal digits and
      letter case are those of ASCII, so the string functions below are
      those of Python on texts of ASCII characters; what they do beyond
      ASCII depends on the Unicode tables of the interpreter and is not
      modelled. A property that would differ there is stated for texts that
      are [ascii_only].
    - A Python [float] is a non-negative IEEE binary64 number given by its
      integral significand and binary exponent; signs and NaN cannot come out
      of the digits that the programs convert.
    - The language model behind the [dspy] predictors is an arbitrary
      function of the calls made so far; every call is recorded in a trace.
    - An exception is the [Raise] result of a computation. *)

From Stdlib Require Import String Ascii List ZArith Lia Bool DecimalString.
Import ListNotations.
Open Scope string_scope.
Open Scope Z_scope.

(** ** Python strings *)

Module PyStr.

(** [str.isspace] on one character of ASCII: tab, line feed, vertical tab,
    form feed, carriage return, the four separators 28-31 and the space.
    The digits and the cased letters below are likewise those of ASCII. *)
Definition isspace (c : ascii) : bool :=
  let n := Z.of_N (N_of_ascii c) in
  ((9 <=? n) && (n <=? 13)) || ((28 <=? n) && (n <=? 32)).

Definition isdigit (c : ascii) : bool :=
  let n := Z.of_N (N_of_ascii c) in (48 <=? n) && (n <=? 57).

Definition isupper (c : ascii) : bool :=
  let n := Z.of_N (N_of_ascii c) in (65 <=? n) && (n <=? 90).

Definition islower (c : ascii) : bool :=
  let n := Z.of_N (N_of_ascii c) in (97 <=? n) && (n <=? 122).

Definition to_lower (c : ascii) : ascii :=
  if isupper c then ascii_of_N (N_of_ascii c + 32) else c.

Definition to_upper (c : ascii) : ascii :=
  if islower c then ascii_of_N (N_of_ascii c - 32) else c.

(** [s.lower()] *)
Fixpoint lower (s : string) : string :=
  match s with
  | EmptyString => EmptyString
  | String c s' => String (to_lower c) (lower s')
  end.

(** [s.title()]: a cased character is upper-cased when the character before
    it is not cased and lower-cased otherwise. *)
Fixpoint title_from (prev_cased : bool) (s : string) : string :=
  match s with
  | EmptyString => EmptyString
  | String c s' =>
      String (if prev_cased then to_lower c else to_upper c)
             (title_from (isupper c || islower c) s')
  end.

Definition title (s : string) : string := title_from false s.

Fixpoint lstrip (s : string) : string :=
  match s with
  | EmptyString => EmptyString
  | String c s' => if isspace c then lstrip s' else s
  end.

Fixpoint rstrip (s : string) : string :=
  match s with
  | EmptyString => EmptyString
  | String c s' =>
      match rstrip s' with
      | EmptyString => if isspace c then EmptyString else String c EmptyString
      | r => String c r
      end
  end.

(** [s.strip()] *)
Definition strip (s : string) : string := rstrip (lstrip s).

(** Truth value of a string: non-empty. *)
Definition truthy (s : string) : bool :=
  match s with EmptyString => false | _ => true end.

(** [s.split(sep)] for a one-character separator: every occurrence cuts, so
    the result always has one piece more than there are separators. *)
Fixpoint split (sep : ascii) (s : string) : list string :=
  match s with
  | EmptyString => [EmptyString]
  | String c s' =>
      if Ascii.eqb c sep then EmptyString :: split sep s'
      else match split sep s' with
           | p :: ps => String c p :: ps
           | [] => [String c EmptyString]
           end
  end.

(** [s.split()] without argument: the maximal runs of non-whitespace. *)
Fixpoint words_from (cur : option string) (s : string) : list string :=
  match s with
  | EmptyString => match cur with Some w => [w] | None => [] end
  | String c s' =>
      if isspace c then
        match cur with
        | Some w => w :: words_from None s'
        | None => words_from None s'
        end
      else
        words_from (Some (match cur with
                          | Some w => w ++ String c EmptyString
                          | None => String c EmptyString
                          end)) s'
  end.

Definition split_ws (s : string) : list string := words_from None s.

(** [c in s] for a single character. *)
Fixpoint occurs (c : ascii) (s : string) : bool :=
  match s with
  | EmptyString => false
  | String c' s' => Ascii.eqb c' c || occurs c s'
  end.

(** [needle in hay] *)
Fixpoint contains (needle hay : string) : bool :=
  String.prefix needle hay
  || match hay with
     | EmptyString => false
     | String _ hay' => contains needle hay'
     end.

End PyStr.

(** ** Outcomes of Python computations *)

Inductive result (A : Type) : Type :=
| Ok (a : A)
| Raise (msg : string).
Arguments Ok {A} a.
Arguments Raise {A} msg.

(** ** Python numbers *)

Module PyNum.

(** A non-negative binary64 value [m * 2^e]. The values produced below are
    canonical: [2^52 <= m < 2^53] with [-1074 <= e <= 971], or
    [m < 2^52] with [e = -1074]. *)
Inductive float : Type :=
| Finite (m e : Z)
| Infinity.

(** What [min], [max] and [str] see: an [int] or a [float]. *)
Inductive pynum : Type :=
| PyInt (z : Z)
| PyFloat (x : float).

Definition float_eqb (x y : float) : bool :=
  match x, y with
  | Finite m1 e1, Finite m2 e2 => (m1 =? m2) && (e1 =? e2)
  | Infinity, Infinity => true
  | _, _ => false
  end.

(** Nearest integer to [p / q], ties to even ([0 <= p], [0 < q]). *)
Definition round_half_even (p q : Z) : Z :=
  let d := p / q in
  let r := p mod q in
  if 2 * r <? q then d
  else if q <? 2 * r then d + 1
  else if Z.even d then d else d + 1.

(** [p / (q * 2^e)] as a fraction of integers. *)
Definition scaled_num (p e : Z) : Z := p * 2 ^ Z.max 0 (- e).
Definition scaled_den (q e : Z) : Z := q * 2 ^ Z.max 0 e.

(** [floor (log2 (p / q))] for positive [p] and [q]. *)
Definition ilog2_ratio (p q : Z) : Z :=
  let g := Z.log2 p - Z.log2 q in
  if scaled_den q g <=? scaled_num p g then g else g - 1.

(** Correctly rounded conversion of the non-negative rational [p / q] to
    binary64 (round to nearest, ties to even; overflow gives infinity,
    underflow is gradual). *)
Definition float_of_ratio (p q : Z) : float :=
  if p <=? 0 then Finite 0 (-1074)
  else
    let e := Z.max (ilog2_ratio p q - 52) (-1074) in
    let m := round_half_even (scaled_num p e) (scaled_den q e) in
    let e' := if m =? 2 ^ 53 then e + 1 else e in
    let m' := if m =? 2 ^ 53 then 2 ^ 52 else m in
    if 971 <? e' then Infinity else Finite m' e'.

(** Exact three-way comparison of [m1 * 2^e1] with [m2 * 2^e2]. *)
Definition cmp_scaled (m1 e1 m2 e2 : Z) : comparison :=
  let e := Z.min e1 e2 in
  (m1 * 2 ^ (e1 - e)) ?= (m2 * 2 ^ (e2 - e)).

(** Python's [a < b] on numbers: exact, also between [int] and [float]. *)
Definition py_ltb (a b : pynum) : bool :=
  match a, b with
  | PyInt x, PyInt y => x <? y
  | PyInt x, PyFloat (Finite m e) =>
      match cmp_scaled x 0 m e with Lt => true | _ => false end
  | PyFloat (Finite m e), PyInt y =>
      match cmp_scaled m e y 0 with Lt => true | _ => false end
  | PyFloat (Finite m1 e1), PyFloat (Finite m2 e2) =>
      match cmp_scaled m1 e1 m2 e2 with Lt => true | _ => false end
  | PyFloat Infinity, _ => false
  | _, PyFloat Infinity => true
  end.

(** Python's [a <= b] on numbers (there is no NaN here). *)
Definition py_leb (a b : pynum) : bool := negb (py_ltb b a).

(** [max(a, b)] and [min(a, b)] of two arguments: the first argument is kept
    unless the second is strictly larger (smaller). *)
Definition py_max (a b : pynum) : pynum := if py_ltb a b then b else a.
Definition py_min (a b : pynum) : pynum := if py_ltb b a then b else a.

(** *** Reading decimal digits *)

Definition digit_val (c : ascii) : Z := Z.of_N (N_of_ascii c) - 48.

Fixpoint digits_value_from (acc : Z) (s : string) : Z :=
  match s with
  | EmptyString => acc
  | String c s' => digits_value_from (10 * acc + digit_val c) s'
  end.

Definition digits_value (s : string) : Z := digits_value_from 0 s.

(** The longest prefix of digits and what follows it. *)
Fixpoint span_digits (s : string) : string * string :=
  match s with
  | EmptyString => (EmptyString, EmptyString)
  | String c s' =>
      if PyStr.isdigit c then
        let (ds, r) := span_digits s' in (String c ds, r)
      else (EmptyString, s)
  end.

(** [float(s)] on unsigned decimal literals without exponent, which is all
    that the regular expression below can capture; any other text raises
    here (signs, exponents, [inf], [nan], underscores and blanks, which the
    built-in also reads, are left out). *)
Definition py_float (s : string) : result float :=
  let bad := Raise ("could not convert string to float: '" ++ s ++ "'") in
  let (ip, r) := span_digits s in
  match r with
  | EmptyString =>
      if PyStr.truthy ip then Ok (float_of_ratio (digits_value ip) 1) else bad
  | String "."%char r' =>
      let (fp, r'') := span_digits r' in
      match r'' with
      | EmptyString =>
          if PyStr.truthy ip || PyStr.truthy fp then
            Ok (float_of_ratio (digits_value (ip ++ fp))
                               (10 ^ Z.of_nat (String.length fp)))
          else bad
      | _ => bad
      end
  | _ => bad
  end.

(** [re.search] with the pattern of one or more digits, an optional dot and
    any number of digits: [None] when [s] has no digit, else group 1 of the
    leftmost match, that is all digits from the first one on, a dot if one
    follows, and all digits after that dot. The digits are 0 to 9, which
    is the whole of the digit class on a text of ASCII characters. *)
Definition match_number_at (s : string) : string :=
  let (ip, r) := span_digits s in
  match r with
  | String "."%char r' => ip ++ "." ++ fst (span_digits r')
  | _ => ip
  end.

Fixpoint re_search_number (s : string) : option string :=
  match s with
  | EmptyString => None
  | String c s' =>
      if PyStr.isdigit c then Some (match_number_at s)
      else re_search_number s'
  end.

(** *** Printing *)

Definition digit_char (d : Z) : ascii := ascii_of_N (Z.to_N (48 + d)).

(** The [n] low decimal digits of [d], most significant first. *)
Fixpoint digits_of (n : nat) (d : Z) : string :=
  match n with
  | O => EmptyString
  | S k => digits_of k (d / 10) ++ String (digit_char (d mod 10)) EmptyString
  end.

(** [str(z)] of an [int]. *)
Definition str_int (z : Z) : string := NilZero.string_of_int (Z.to_int z).

(** [m * 2^e < 10^d] *)
Definition below_pow10 (m e d : Z) : bool :=
  m * 2 ^ Z.max 0 e * 10 ^ Z.max 0 (- d) <? 2 ^ Z.max 0 (- e) * 10 ^ Z.max 0 d.

Fixpoint find_decpt (fuel : nat) (d m e : Z) : Z :=
  match fuel with
  | O => d
  | S f => if below_pow10 m e d then d else find_decpt f (d + 1) m e
  end.

(** Position of the decimal point: the least [d] with [m * 2^e < 10^d]
    (between -323 and 309 for a positive binary64 number). *)
Definition decpt_of (m e : Z) : Z := find_decpt 640 (-330) m e.

(** Does the decimal [d * 10^s] convert back to [m * 2^e]? *)
Definition reads_back (m e d s : Z) : bool :=
  float_eqb (float_of_ratio (d * 10 ^ Z.max 0 s) (10 ^ Z.max 0 (- s)))
            (Finite m e).

(** The [n]-digit decimals around [x = m * 2^e], whose decimal point is at
    [p]: the one below ([lo]) and the one above ([lo + 1]); [near_lo] says
    that the lower one is the nearer (on a tie, the one with an even last
    digit). The result is (digits, number of digits, decimal point). *)
Definition lo_digits (m e p n : Z) : Z :=
  (m * 2 ^ Z.max 0 e * 10 ^ Z.max 0 (n - p))
  / (2 ^ Z.max 0 (- e) * 10 ^ Z.max 0 (p - n)).

Definition near_lo (m e p n : Z) : bool :=
  let den := 2 ^ Z.max 0 (- e) * 10 ^ Z.max 0 (p - n) in
  let r := (m * 2 ^ Z.max 0 e * 10 ^ Z.max 0 (n - p)) mod den in
  (2 * r <? den) || ((2 * r =? den) && Z.even (lo_digits m e p n)).

Definition with_carry (d p n : Z) : Z * Z * Z :=
  if d =? 10 ^ n then (1, 1, p + 1) else (d, n, p).

Definition nearest_digits (m e p n : Z) : Z * Z * Z :=
  let lo := lo_digits m e p n in
  if near_lo m e p n then (lo, n, p) else with_carry (lo + 1) p n.

Definition digits_at (m e p n : Z) : option (Z * Z * Z) :=
  let lo := lo_digits m e p n in
  let ok_lo := reads_back m e lo (p - n) in
  let ok_hi := reads_back m e (lo + 1) (p - n) in
  if ok_lo && ok_hi then Some (nearest_digits m e p n)
  else if ok_lo then Some (lo, n, p)
  else if ok_hi then Some (with_carry (lo + 1) p n)
  else None.

(** The shortest digit string that converts back to the number, and among
    those the nearest; seventeen digits are always enough, so the search
    stops there with the nearest seventeen-digit decimal. *)
Fixpoint shortest_digits (fuel : nat) (n m e p : Z) : Z * Z * Z :=
  match fuel with
  | O => nearest_digits m e p n
  | S f =>
      match digits_at m e p n with
      | Some r => r
      | None => shortest_digits f (n + 1) m e p
      end
  end.

Definition zeros (k : Z) : string := digits_of (Z.to_nat k) 0.

(** [repr(x)], which is also [str(x)], of a [float]: the shortest digits,
    in exponent notation when the decimal point is left of -3 or right of
    16, else positional with at least one digit after the point. *)
Definition repr_float (x : float) : string :=
  match x with
  | Infinity => "inf"
  | Finite m e =>
      if m <=? 0 then "0.0"
      else
        let '(d, k, p) := shortest_digits 16 1 m e (decpt_of m e) in
        let ds := digits_of (Z.to_nat k) d in
        if (p <=? -4) || (16 <? p) then
          let mant :=
            match ds with
            | String c EmptyString => ds
            | String c rest => String c ("." ++ rest)
            | EmptyString => ds
            end in
          let ex := p - 1 in
          mant ++ "e" ++ (if ex <? 0 then "-" else "+")
               ++ (if Z.abs ex <? 10 then "0" else "") ++ str_int (Z.abs ex)
        else if p <=? 0 then "0." ++ zeros (- p) ++ ds
        else if k <=? p then ds ++ zeros (p - k) ++ ".0"
        else substring 0 (Z.to_nat p) ds ++ "."
             ++ substring (Z.to_nat p) (Z.to_nat (k - p)) ds
  end.

(** [str(v)] of a number. *)
Definition py_str (v : pynum) : string :=
  match v with
  | PyInt z => str_int z
  | PyFloat x => repr_float x
  end.

End PyNum.

(** ** Python values and dictionaries *)

#[warnings="-register-all"] Inductive pyval : Type :=
| VStr (s : string)
| VNum (n : PyNum.pynum)
| VList (l : list string)
| VDict (d : list (string * pyval)).

(** A [dict] with string keys: the items in insertion order, keys unique. *)
Definition dict : Type := list (string * pyval).

Fixpoint dict_get (d : dict) (k : string) : option pyval :=
  match d with
  | [] => None
  | (k', v) :: d' => if String.eqb k' k then Some v else dict_get d' k
  end.

(** [d[k] = v]: an existing key keeps its place and takes the new value, a
    new key goes to the end. *)
Fixpoint dict_set (d : dict) (k : string) (v : pyval) : dict :=
  match d with
  | [] => [(k, v)]
  | (k', v') :: d' =>
      if String.eqb k' k then (k', v) :: d' else (k', v') :: dict_set d' k v
  end.

Definition dict_keys (d : dict) : list string := map fst d.

(** ** Effects: predictor calls, Streamlit messages, exceptions *)

Section Effects.

Context {call : Type}.

(** What an observer of one run sees, in order: each predictor call with
    whether it returned, and the messages, layout elements and results
    handed to Streamlit. [Displayed r mode] records that [display_results]
    rendered the result [r] to the end; the layout elements written before
    a lookup in the result that can fail are recorded on their own. The
    page title, the input widgets and the spinner, which are the same in
    every run, are not recorded. *)
Inductive event : Type :=
| Called (c : call) (returned : bool)
| StWarning (msg : string)
| StError (msg : string)
| StColumns (weights : list Z)
| StSubheader (title : string)
| Displayed (r : dict) (mode : string).

(** A computation reads and extends the trace and returns or raises. *)
Definition M (A : Type) : Type := list event -> result A * list event.

Definition ret {A} (a : A) : M A := fun tr => (Ok a, tr).

Definition bind {A B} (m : M A) (k : A -> M B) : M B :=
  fun tr =>
    match m tr with
    | (Ok a, tr') => k a tr'
    | (Raise e, tr') => (Raise e, tr')
    end.

Definition lift {A} (r : result A) : M A := fun tr => (r, tr).

Definition emit (ev : event) : M unit := fun tr => (Ok tt, (tr ++ [ev])%list).

(** [try: body except Exception as e: handler(str(e))] *)
Definition try_except {A} (body : M A) (handler : string -> M A) : M A :=
  fun tr =>
    match body tr with
    | (Ok a, tr') => (Ok a, tr')
    | (Raise e, tr') => handler e tr'
    end.

Definition returned {A} (r : result A) : bool :=
  match r with Ok _ => true | Raise _ => false end.

(** One call of a [dspy] predictor: the language model answers, or the call
    raises, depending on the call and on everything that happened before. *)
Definition predict {A} (c : call) (reply : list event -> result A) : M A :=
  fun tr => (reply tr, (tr ++ [Called c (returned (reply tr))])%list).

Definition is_call (ev : event) : bool :=
  match ev with Called _ _ => true | _ => false end.

Definition is_returned_call (ev : event) : bool :=
  match ev with Called _ true => true | _ => false end.

(** The predictor calls of a trace. *)
Definition calls (tr : list event) : list event := filter is_call tr.

End Effects.

Arguments event : clear implicits.
Arguments M : clear implicits.

Declare Scope py_scope.
Delimit Scope py_scope with py.
Notation "x <- m ;; k" := (bind m (fun x => k))
  (at level 61, m at next level, right associativity) : py_scope.
Notation "m ;; k" := (bind m (fun _ => k))
  (at level 61, right associativity) : py_scope.

(** ** ResumeAnalyzer.py *)

Module ResumeAnalyzer.

Import PyNum.

(** The predictions of the three predictors, by output field. *)
Record Evaluation : Type := { analysis : string; score : string }.

Record Assessment : Type := {
  summary : string;
  strengths : string;
  weaknesses : string;
  recommendations : string
}.

Inductive call : Type :=
| SectionIdentifier (resume_text : string)
| ContentEvaluator (section text : string)
| OverallAssessor (resume_text : string).

(** The language model as seen through the three predictors. *)
Record Oracle : Type := {
  section_identifier : list (event call) -> string -> result string;
  content_evaluator :
    list (event call) -> string -> string -> result Evaluation;
  overall_assessor : list (event call) -> string -> result Assessment
}.

Definition float_5_0 : float := Finite 5629499534213120 (-50).

(** [min(10, max(1, float(match.group(1))) if match else 5.0)]: the
    conditional expression is the second argument of [min]. *)
Definition _parse_score (score_str : string) : result pynum :=
  match re_search_number score_str with
  | Some g =>
      match py_float g with
      | Ok x => Ok (py_min (PyInt 10) (py_max (PyInt 1) (PyFloat x)))
      | Raise e => Raise e
      end
  | None => Ok (py_min (PyInt 10) (PyFloat float_5_0))
  end.

(** [[f(item.strip()) for item in items.split(sep) if item.strip()]] *)
Definition stripped_pieces (sep : ascii) (items : string) : list string :=
  map PyStr.strip
      (filter (fun item => PyStr.truthy (PyStr.strip item))
              (PyStr.split sep items)).

Definition _format_list (items : string) : list string :=
  map (fun item => "- " ++ item) (stripped_pieces ";" items).

(** The loop over [section_list], filling [section_analyses]. *)
Fixpoint analyze_sections (o : Oracle) (resume_text : string)
    (section_list : list string) (section_analyses : dict) : M call dict :=
  match section_list with
  | [] => ret section_analyses
  | section :: rest =>
      (r <- predict (ContentEvaluator section resume_text)
                    (fun tr => content_evaluator o tr section resume_text) ;;
       sc <- lift (_parse_score (score r)) ;;
       analyze_sections o resume_text rest
         (dict_set section_analyses section
            (VDict [("analysis", VStr (analysis r)); ("score", VNum sc)])))%py
  end.

(** The body of the [try] block of [forward]. *)
Definition forward_body (o : Oracle) (resume_text : string) : M call dict :=
  (sections <- predict (SectionIdentifier resume_text)
                       (fun tr => section_identifier o tr resume_text) ;;
   let section_list := stripped_pieces "," sections in
   section_analyses <- analyze_sections o resume_text section_list [] ;;
   overall <- predict (OverallAssessor resume_text)
                      (fun tr => overall_assessor o tr resume_text) ;;
   ret [("sections", VList section_list);
        ("section_analyses", VDict section_analyses);
        ("overall_summary", VStr (summary overall));
        ("strengths", VList (_format_list (strengths overall)));
        ("weaknesses", VList (_format_list (weaknesses overall)));
        ("recommendations", VList (_format_list (recommendations overall)))])%py.

Definition forward (o : Oracle) (resume_text : string) : M call dict :=
  try_except (forward_body o resume_text)
    (fun e => (emit (StError ("Analysis failed: " ++ e)) ;; ret [])%py).

(** [display_results] reads the result with [get] and defaults and only
    renders, which is recorded as one [Displayed] event. *)
Definition display_results (result : dict) (mode : string) : M call unit :=
  emit (Displayed result mode).

(** The button handler of [main]: [clicked] is the state of the button,
    [resume_text] the content of the text area, [analysis_mode] the choice
    in the side bar. *)
Definition main (o : Oracle) (clicked : bool) (resume_text analysis_mode : string)
  : M call unit :=
  if clicked then
    if (List.length (PyStr.split_ws resume_text) <? 50)%nat then
      emit (StWarning "Please provide a more detailed resume (minimum 50 words)")
    else
      try_except
        (result <- forward o resume_text ;;
         display_results result analysis_mode)%py
        (fun e => emit (StError ("Analysis error: " ++ e)))
  else ret tt.

End ResumeAnalyzer.

(** ** movieReviewandRecommendation.py *)

Module AdvancedMovieReviewer.

Import PyNum.

Record Analysis : Type := {
  plot_summary : string;
  character_analysis : string;
  directing_quality : string;
  cinematography : string;
  technical_aspects : string;
  cultural_impact : string;
  rating : string
}.

Record Comparisons : Type := {
  similar_movies : string;
  recommendations : string
}.

Inductive call : Type :=
| AnalysisCall (review : string)
| GenreClassifier (review : string)
| Recommender (review : string).

Record Oracle : Type := {
  analysis : list (event call) -> string -> result Analysis;
  genre_classifier : list (event call) -> string -> result string;
  recommender : list (event call) -> string -> result Comparisons
}.

(** [min(10, max(0, float(match.group(1))) if match else 5.0)] *)
Definition _parse_rating (rating_str : string) : result pynum :=
  match re_search_number rating_str with
  | Some g =>
      match py_float g with
      | Ok x => Ok (py_min (PyInt 10) (py_max (PyInt 0) (PyFloat x)))
      | Raise e => Raise e
      end
  | None => Ok (py_min (PyInt 10) (PyFloat ResumeAnalyzer.float_5_0))
  end.

Definition _format_genres (genres : string) : list string :=
  map (fun g => PyStr.title (PyStr.strip g))
      (filter (fun g => PyStr.truthy (PyStr.strip g)) (PyStr.split "," genres)).

Definition _format_list (items : string) : list string :=
  map (fun item => "- " ++ item) (ResumeAnalyzer.stripped_pieces "," items).

Definition stars_5 : string := "★★★★★".
Definition stars_4 : string := "★★★★☆".
Definition stars_3 : string := "★★★☆☆".
Definition stars_2 : string := "★★☆☆☆".

Definition _rate_quality (text : string) : string :=
  let text := PyStr.lower text in
  if PyStr.contains "excellent" text then stars_5
  else if PyStr.contains "good" text then stars_4
  else if PyStr.contains "average" text then stars_3
  else if PyStr.contains "poor" text then stars_2
  else stars_3.

(** The body of the [try] block of [forward]; the items of the dictionary
    display are evaluated in the order written. *)
Definition forward_body (o : Oracle) (review : string) : M call dict :=
  (a <- predict (AnalysisCall review) (fun tr => analysis o tr review) ;;
   genres <- predict (GenreClassifier review)
                     (fun tr => genre_classifier o tr review) ;;
   comparisons <- predict (Recommender review)
                          (fun tr => recommender o tr review) ;;
   r <- lift (_parse_rating (rating a)) ;;
   ret [("plot_summary", VStr (plot_summary a));
        ("character_analysis", VStr (character_analysis a));
        ("technical_review",
         VDict [("directing", VStr (_rate_quality (directing_quality a)));
                ("cinematography", VStr (_rate_quality (cinematography a)));
                ("technical_aspects",
                 VStr (_rate_quality (technical_aspects a)))]);
        ("cultural_impact", VStr (cultural_impact a));
        ("rating", VNum r);
        ("genres", VList (_format_genres genres));
        ("similar_movies", VList (_format_list (similar_movies comparisons)));
        ("recommendations",
         VList (_format_list (recommendations comparisons)))])%py.

Definition forward (o : Oracle) (review : string) : M call dict :=
  try_except (forward_body o review)
    (fun e => (emit (StError ("Analysis failed: " ++ e)) ;; ret [])%py).

(** [display_results] lays out the two columns, writes the sub-header of
    the first one and then subscripts the result, first with the key
    [rating]: a missing key raises [KeyError] when the layout and the
    sub-header are already out. The elements written from the result are
    recorded as one [Displayed] event. *)
Definition display_results (result : dict) : M call unit :=
  (emit (StColumns [1; 2]) ;;
   emit (StSubheader "⚡ Quick Insights") ;;
   match dict_get result "rating" with
   | Some _ => emit (Displayed result "")
   | None => lift (Raise "'rating'")
   end)%py.

(** The button handler of [main]. *)
Definition main (o : Oracle) (clicked : bool) (review : string) : M call unit :=
  if clicked then
    if negb (PyStr.truthy (PyStr.strip review)) then
      emit (StWarning "Please enter a review to analyze")
    else
      try_except
        (result <- forward o review ;; display_results result)%py
        (fun e => emit (StError ("Analysis failed: " ++ e)))
  else ret tt.

End AdvancedMovieReviewer.

(** ** The design document's vocabulary *)

(** The four quality bands of the design document, in the order in which
    [_rate_quality] tests their keywords. *)
Inductive band : Type := Excellent | Good | Average | Poor.

Definition band_keyword (b : band) : string :=
  match b with
  | Excellent => "excellent"
  | Good => "good"
  | Average => "average"
  | Poor => "poor"
  end.

Definition band_stars (b : band) : string :=
  match b with
  | Excellent => AdvancedMovieReviewer.stars_5
  | Good => AdvancedMovieReviewer.stars_4
  | Average => AdvancedMovieReviewer.stars_3
  | Poor => AdvancedMovieReviewer.stars_2
  end.

Definition declared_order : list band := [Excellent; Good; Average; Poor].

(** The design document's [mapQualityToStars]: the first band, in the
    declared order, whose keyword occurs in the text regardless of case;
    [Average] when none does. *)
Definition mapQualityToStars (text : string) : band :=
  match find (fun b => PyStr.contains (band_keyword b) (PyStr.lower text))
             declared_order with
  | Some b => b
  | None => Average
  end.

(** [lo <= v <= hi] for the exact value of a number. *)
Definition within (lo hi : Z) (v : PyNum.pynum) : Prop :=
  match v with
  | PyNum.PyInt z => lo <= z <= hi
  | PyNum.PyFloat (PyNum.Finite m e) =>
      lo * 2 ^ Z.max 0 (- e) <= m * 2 ^ Z.max 0 e <= hi * 2 ^ Z.max 0 (- e)
  | PyNum.PyFloat PyNum.Infinity => False
  end.

(** [2^k <= p / q], on integers. *)
Definition ratio_ge_pow2 (p q k : Z) : Prop :=
  PyNum.scaled_den q k <= PyNum.scaled_num p k.

(** A binary64 number [m * 2^e] strictly between 1 and 10. *)
Definition in_1_10 (m e : Z) : Prop :=
  2 ^ 52 <= m < 2 ^ 53
  /\ (e = -52 \/ e = -51 \/ e = -50 \/ e = -49)
  /\ 2 ^ (- e) < m < 10 * 2 ^ (- e).

(** [min(hi, max(lo, x))] as both score parsers apply it to a converted
    number. *)
Definition clamp (lo hi : Z) (x : PyNum.float) : PyNum.pynum :=
  PyNum.py_min (PyNum.PyInt hi) (PyNum.py_max (PyNum.PyInt lo) (PyNum.PyFloat x)).

Fixpoint all_chars (f : ascii -> bool) (s : string) : bool :=
  match s with
  | EmptyString => true
  | String c s' => f c && all_chars f s'
  end.

Definition all_digits (s : string) : bool := all_chars PyStr.isdigit s.

(** The text holds ASCII characters only: the domain on which the string
    functions of [PyStr] and the digit pattern of [PyNum] are those of
    Python. *)
Definition ascii_only (s : string) : bool :=
  all_chars (fun c => (N_of_ascii c <? 128)%N) s.

(** The replies that [forward] cuts into lists, case-folds or reads a
    number from are texts of ASCII characters. *)
Definition ascii_assessment (a : ResumeAnalyzer.Assessment) : bool :=
  ascii_only (ResumeAnalyzer.strengths a)
  && ascii_only (ResumeAnalyzer.weaknesses a)
  && ascii_only (ResumeAnalyzer.recommendations a).

Definition ascii_review (a : AdvancedMovieReviewer.Analysis) (genres : string)
    (c : AdvancedMovieReviewer.Comparisons) : bool :=
  ascii_only (AdvancedMovieReviewer.directing_quality a)
  && ascii_only (AdvancedMovieReviewer.cinematography a)
  && ascii_only (AdvancedMovieReviewer.technical_aspects a)
  && ascii_only (AdvancedMovieReviewer.rating a)
  && ascii_only genres
  && ascii_only (AdvancedMovieReviewer.similar_movies c)
  && ascii_only (AdvancedMovieReviewer.recommendations c).

Definition no_digit (s : string) : bool :=
  all_chars (fun c => negb (PyStr.isdigit c)) s.

(** The first character, if any, satisfies [f]. *)
Definition starts_with (f : ascii -> bool) (s : string) : bool :=
  match s with
  | EmptyString => false
  | String c _ => f c
  end.

(** What [ResumeAnalyzer.forward] returns when no call raises. *)
Definition complete_result (section_list : list string) (sa : dict)
    (a : ResumeAnalyzer.Assessment) : dict :=
  [("sections", VList section_list);
   ("section_analyses", VDict sa);
   ("overall_summary", VStr (ResumeAnalyzer.summary a));
   ("strengths",
    VList (ResumeAnalyzer._format_list (ResumeAnalyzer.strengths a)));
   ("weaknesses",
    VList (ResumeAnalyzer._format_list (ResumeAnalyzer.weaknesses a)));
   ("recommendations",
    VList (ResumeAnalyzer._format_list (ResumeAnalyzer.recommendations a)))].

(** What [AdvancedMovieReviewer.forward] returns when no call raises. *)
Definition review_result (a : AdvancedMovieReviewer.Analysis) (genres : string)
    (c : AdvancedMovieReviewer.Comparisons) (r : PyNum.pynum) : dict :=
  [("plot_summary", VStr (AdvancedMovieReviewer.plot_summary a));
   ("character_analysis", VStr (AdvancedMovieReviewer.character_analysis a));
   ("technical_review",
    VDict [("directing",
            VStr (AdvancedMovieReviewer._rate_quality
                    (AdvancedMovieReviewer.directing_quality a)));
           ("cinematography",
            VStr (AdvancedMovieReviewer._rate_quality
                    (AdvancedMovieReviewer.cinematography a)));
           ("technical_aspects",
            VStr (AdvancedMovieReviewer._rate_quality
                    (AdvancedMovieReviewer.technical_aspects a)))]);
   ("cultural_impact", VStr (AdvancedMovieReviewer.cultural_impact a));
   ("rating", VNum r);
   ("genres", VList (AdvancedMovieReviewer._format_genres genres));
   ("similar_movies",
    VList (AdvancedMovieReviewer._format_list
             (AdvancedMovieReviewer.similar_movies c)));
   ("recommendations",
    VList (AdvancedMovieReviewer._format_list
             (AdvancedMovieReviewer.recommendations c)))].

(** What either [forward] does in its exception handler, after the trace
    [tr], for the exception text [e]. *)
Definition failed {call : Type} (tr : list (event call)) (e : string)
  : result dict * list (event call) :=
  (Ok [], (tr ++ [StError ("Analysis failed: " ++ e)])%list).

(** A test double for the resume predictors: the section identifier
    answers [sections], the evaluator raises for the sections selected by
    [failing] and answers "8/10" for the others, the assessor answers. *)
Definition sample_assessment : ResumeAnalyzer.Assessment :=
  {| ResumeAnalyzer.summary := "Solid profile";
     ResumeAnalyzer.strengths := "Clear; Concise";
     ResumeAnalyzer.weaknesses := "No metrics";
     ResumeAnalyzer.recommendations := "Add numbers; Add links" |}.

Definition test_double (sections : string) (failing : string -> bool)
  : ResumeAnalyzer.Oracle :=
  {| ResumeAnalyzer.section_identifier := fun _ _ => Ok sections;
     ResumeAnalyzer.content_evaluator := fun _ section _ =>
       if failing section then Raise "timeout"
       else Ok {| ResumeAnalyzer.analysis := "fine";
                  ResumeAnalyzer.score := "8/10" |};
     ResumeAnalyzer.overall_assessor := fun _ _ => Ok sample_assessment |}.

(** A stored evaluation: an analysis and a score from 1 to 10. *)
Definition scored_evaluation (v : pyval) : Prop :=
  exists a n,
    v = VDict [("analysis", VStr a); ("score", VNum n)] /\ within 1 10 n.


(** Runs of [ResumeAnalyzer.forward] with test doubles: one in which every
    call returns, on a reply that repeats a name, and one in which the call
    for the second of three sections raises. *)
Definition sample_oracle : ResumeAnalyzer.Oracle :=
  test_double "b, a, b" (fun _ => false).

Definition sample_result : dict :=
  Eval vm_compute in
    match fst (ResumeAnalyzer.forward sample_oracle "doc" []) with
    | Ok d => d
    | Raise _ => []
    end.

Definition sample_trace : list (event ResumeAnalyzer.call) :=
  Eval vm_compute in snd (ResumeAnalyzer.forward sample_oracle "doc" []).

Definition sample_analyses : dict :=
  Eval vm_compute in
    match dict_get sample_result "section_analyses" with
    | Some (VDict sa) => sa
    | _ => []
    end.




(** A test double for the movie predictors; the genre classifier raises
    when [genres_fail] is set. *)
Definition review_double (genres_fail : bool) : AdvancedMovieReviewer.Oracle :=
  {| AdvancedMovieReviewer.analysis := fun _ _ =>
       Ok {| AdvancedMovieReviewer.plot_summary := "A heist";
             AdvancedMovieReviewer.character_analysis := "Thin";
             AdvancedMovieReviewer.directing_quality := "Excellent pacing";
             AdvancedMovieReviewer.cinematography := "good";
             AdvancedMovieReviewer.technical_aspects := "uneven";
             AdvancedMovieReviewer.cultural_impact := "Minor";
             AdvancedMovieReviewer.rating := "7.5/10" |};
     AdvancedMovieReviewer.genre_classifier := fun _ _ =>
       if genres_fail then Raise "timeout" else Ok "sci-fi, DRAMA";
     AdvancedMovieReviewer.recommender := fun _ _ =>
       Ok {| AdvancedMovieReviewer.similar_movies := "Heat, Ronin";
             AdvancedMovieReviewer.recommendations := "Watch it" |} |}.

Definition review_result_sample : dict :=
  Eval vm_compute in
    match fst (AdvancedMovieReviewer.forward (review_double false) "r" []) with
    | Ok d => d
    | Raise _ => []
    end.

Definition review_trace_sample : list (event AdvancedMovieReviewer.call) :=
  Eval vm_compute in
    snd (AdvancedMovieReviewer.forward (review_double false) "r" []).


(** The keys of a complete result of either [forward]. *)
Definition resume_keys : list string :=
  ["sections"; "section_analyses"; "overall_summary"; "strengths";
   "weaknesses"; "recommendations"].

Definition review_keys : list string :=
  ["plot_summary"; "character_analysis"; "technical_review";
   "cultural_impact"; "rating"; "genres"; "similar_movies";
   "recommendations"].

(** Each element once, at its first position. *)
Fixpoint first_seen (l : list string) : list string :=
  match l with
  | [] => []
  | x :: l' => x :: filter (fun y => negb (String.eqb y x)) (first_seen l')
  end.

(** * Properties *)

(** ** Quality bands *)

Import AdvancedMovieReviewer.

Lemma rate_quality_refines (text : string) :
  _rate_quality text = band_stars (mapQualityToStars text).
Proof.
  unfold _rate_quality, mapQualityToStars, declared_order; cbn [find band_keyword].
  destruct (PyStr.contains "excellent" (PyStr.lower text)); [reflexivity|].
  destruct (PyStr.contains "good" (PyStr.lower text)); [reflexivity|].
  destruct (PyStr.contains "average" (PyStr.lower text)); [reflexivity|].
  destruct (PyStr.contains "poor" (PyStr.lower text)); reflexivity.
Qed.

Lemma find_first {A} (f : A -> bool) (before after : list A) (x : A) :
  (forall y, In y before -> f y = false) -> f x = true ->
  find f (before ++ x :: after)%list = Some x.
Proof.
  induction before as [|y before IH]; cbn; intros Hb Hx.
  - now rewrite Hx.
  - rewrite (Hb y) by now left. apply IH; auto.
Qed.

Lemma to_lower_idem (c : ascii) :
  PyStr.to_lower (PyStr.to_lower c) = PyStr.to_lower c.
Proof.
  destruct c as [[] [] [] [] [] [] [] []]; reflexivity.
Qed.

Lemma lower_idem (s : string) : PyStr.lower (PyStr.lower s) = PyStr.lower s.
Proof.
  induction s as [|c s IH]; cbn; [reflexivity|].
  now rewrite to_lower_idem, IH.
Qed.

(** C5: [_rate_quality] lower-cases the text and returns the stars of the
    first band, in the order Excellent, Good, Average, Poor, whose keyword
    occurs in it, and those of Average when none occurs; letter case does not
    matter; the text "This was an excellent and good performance" gets the
    Excellent band. *)
Theorem rate_quality_first_band_wins :
  (forall text, _rate_quality text = band_stars (mapQualityToStars text))
  /\ (forall text before b after,
        declared_order = (before ++ b :: after)%list ->
        PyStr.contains (band_keyword b) (PyStr.lower text) = true ->
        (forall b', In b' before ->
                    PyStr.contains (band_keyword b') (PyStr.lower text) = false) ->
        _rate_quality text = band_stars b)
  /\ (forall text,
        (forall b, PyStr.contains (band_keyword b) (PyStr.lower text) = false) ->
        _rate_quality text = band_stars Average)
  /\ (forall text, _rate_quality (PyStr.lower text) = _rate_quality text)
  /\ mapQualityToStars "This was an excellent and good performance" = Excellent
  /\ _rate_quality "This was an excellent and good performance" = stars_5
  /\ _rate_quality "GOOD, almost Excellent" = stars_5.
Proof.
  split; [exact rate_quality_refines|].
  split.
  { intros text before b after Hord Hb Hbefore.
    rewrite rate_quality_refines. unfold mapQualityToStars.
    rewrite Hord.
    now rewrite (find_first _ before after b Hbefore Hb). }
  split.
  { intros text Hnone. rewrite rate_quality_refines.
    unfold mapQualityToStars, declared_order; cbn [find].
    now rewrite !Hnone. }
  split.
  { intros text. unfold _rate_quality. now rewrite lower_idem. }
  repeat split; reflexivity.
Qed.

Lemma rate_quality_first_band_wins_witness :
  _rate_quality "Good but poor pacing" = band_stars Good.
Proof.
  destruct rate_quality_first_band_wins as (_ & Hfirst & _).
  apply (Hfirst "Good but poor pacing" [Excellent] Good [Average; Poor]).
  - reflexivity.
  - reflexivity.
  - intros b' [<-|[]]. reflexivity.
Defined.

(** C10: [_rate_quality] returns one of four pairwise distinct star strings,
    each of which is returned for some text, and the string returned when
    no keyword occurs is the very string returned for the keyword
    "average". *)
Theorem rate_quality_four_strings :
  (forall text, In (_rate_quality text) [stars_5; stars_4; stars_3; stars_2])
  /\ NoDup [stars_5; stars_4; stars_3; stars_2]
  /\ (forall s, In s [stars_5; stars_4; stars_3; stars_2] ->
                exists text, _rate_quality text = s)
  /\ (forall text,
        (forall b, PyStr.contains (band_keyword b) (PyStr.lower text) = false) ->
        _rate_quality text = _rate_quality "average")
  /\ _rate_quality "no opinion" = _rate_quality "It was average".
Proof.
  split.
  { intros text. rewrite rate_quality_refines.
    destruct (mapQualityToStars text); cbn; auto. }
  split.
  { repeat constructor; cbn; intuition discriminate. }
  split.
  { intros s [<-|[<-|[<-|[<-|[]]]]].
    - now exists "excellent".
    - now exists "good".
    - now exists "average".
    - now exists "poor". }
  split.
  { intros text Hnone. unfold _rate_quality.
    rewrite (Hnone Excellent : PyStr.contains "excellent" _ = false).
    rewrite (Hnone Good : PyStr.contains "good" _ = false).
    rewrite (Hnone Average : PyStr.contains "average" _ = false).
    rewrite (Hnone Poor : PyStr.contains "poor" _ = false).
    reflexivity. }
  reflexivity.
Qed.

Lemma rate_quality_four_strings_witness :
  _rate_quality "" = _rate_quality "average".
Proof.
  destruct rate_quality_four_strings as (_ & _ & _ & Hdefault & _).
  apply (Hdefault "").
  intros []; reflexivity.
Defined.

(** ** Splitting and trimming *)

Lemma split_not_nil (sep : ascii) (s : string) : PyStr.split sep s <> [].
Proof.
  destruct s as [|c s]; cbn; [discriminate|].
  destruct (Ascii.eqb c sep); [discriminate|].
  destruct (PyStr.split sep s); discriminate.
Qed.

Lemma split_app (sep : ascii) (a b : string) :
  PyStr.split sep (a ++ String sep b)
  = (PyStr.split sep a ++ PyStr.split sep b)%list.
Proof.
  induction a as [|c a IH]; cbn.
  - now rewrite Ascii.eqb_refl.
  - destruct (Ascii.eqb c sep); [now rewrite IH|].
    rewrite IH.
    destruct (PyStr.split sep a) as [|p ps] eqn:E; [|reflexivity].
    now destruct (split_not_nil sep a).
Qed.

Lemma split_without_sep (sep : ascii) (s : string) :
  PyStr.occurs sep s = false -> PyStr.split sep s = [s].
Proof.
  induction s as [|c s IH]; cbn; [reflexivity|].
  intros H. apply orb_false_iff in H as [Hc Hs].
  now rewrite Hc, (IH Hs).
Qed.

Lemma rstrip_cons (c : ascii) (s : string) :
  PyStr.rstrip (String c s)
  = match PyStr.rstrip s with
    | EmptyString => if PyStr.isspace c then EmptyString else String c EmptyString
    | r => String c r
    end.
Proof. reflexivity. Qed.

Lemma rstrip_idem (s : string) : PyStr.rstrip (PyStr.rstrip s) = PyStr.rstrip s.
Proof.
  induction s as [|c s IH]; [reflexivity|].
  rewrite rstrip_cons.
  destruct (PyStr.rstrip s) as [|c' r] eqn:E.
  - destruct (PyStr.isspace c) eqn:Hc; cbn; [reflexivity|now rewrite Hc].
  - rewrite rstrip_cons, IH. reflexivity.
Qed.

Lemma lstrip_head (s : string) :
  match PyStr.lstrip s with
  | EmptyString => True
  | String c _ => PyStr.isspace c = false
  end.
Proof.
  induction s as [|c s IH]; cbn; [exact I|].
  destruct (PyStr.isspace c) eqn:Hc; [exact IH|exact Hc].
Qed.

Lemma rstrip_head (c : ascii) (s : string) :
  PyStr.isspace c = false ->
  exists r, PyStr.rstrip (String c s) = String c r.
Proof.
  intros Hc. cbn. destruct (PyStr.rstrip s); rewrite ?Hc; eauto.
Qed.

(** A stripped string has no blank left at either end. *)
Lemma strip_trimmed (s : string) :
  PyStr.lstrip (PyStr.strip s) = PyStr.strip s
  /\ PyStr.rstrip (PyStr.strip s) = PyStr.strip s.
Proof.
  unfold PyStr.strip. split; [|apply rstrip_idem].
  pose proof (lstrip_head s) as H.
  destruct (PyStr.lstrip s) as [|c r]; [reflexivity|].
  destruct (rstrip_head c r H) as [r' ->]. cbn. now rewrite H.
Qed.

Lemma strip_idem (s : string) : PyStr.strip (PyStr.strip s) = PyStr.strip s.
Proof.
  destruct (strip_trimmed s) as [Hl Hr].
  unfold PyStr.strip at 1. now rewrite Hl, Hr.
Qed.

Import ResumeAnalyzer.

Lemma stripped_pieces_app (sep : ascii) (a b : string) :
  stripped_pieces sep (a ++ String sep b)
  = (stripped_pieces sep a ++ stripped_pieces sep b)%list.
Proof.
  unfold stripped_pieces. now rewrite split_app, filter_app, map_app.
Qed.

Lemma stripped_pieces_single (sep : ascii) (s : string) :
  PyStr.occurs sep s = false ->
  stripped_pieces sep s
  = if PyStr.truthy (PyStr.strip s) then [PyStr.strip s] else [].
Proof.
  intros H. unfold stripped_pieces. rewrite (split_without_sep _ _ H). cbn.
  now destruct (PyStr.truthy (PyStr.strip s)).
Qed.

Lemma stripped_pieces_elements (sep : ascii) (s p : string) :
  In p (stripped_pieces sep s) -> p <> "" /\ PyStr.strip p = p.
Proof.
  unfold stripped_pieces. intros H.
  apply in_map_iff in H as (x & <- & Hx).
  apply filter_In in Hx as [_ Hx].
  split; [|apply strip_idem].
  intros E. now rewrite E in Hx.
Qed.

(** ** List extraction *)

Lemma format_list_spec (sep : ascii) (f : string -> list string) :
  (forall s, f s = map (fun item => "- " ++ item) (stripped_pieces sep s)) ->
  (forall a b, f (a ++ String sep b) = (f a ++ f b)%list)
  /\ (forall s, PyStr.occurs sep s = false ->
                f s = if PyStr.truthy (PyStr.strip s)
                      then ["- " ++ PyStr.strip s] else [])
  /\ (forall s x, In x (f s) ->
                  exists p, x = "- " ++ p /\ p <> "" /\ PyStr.strip p = p).
Proof.
  intros Hf. split; [|split].
  - intros a b. now rewrite !Hf, stripped_pieces_app, map_app.
  - intros s H. rewrite Hf, (stripped_pieces_single _ _ H).
    now destruct (PyStr.truthy (PyStr.strip s)).
  - intros s x H. rewrite Hf in H. apply in_map_iff in H as (p & <- & Hp).
    exists p. split; [reflexivity|]. exact (stripped_pieces_elements _ _ _ Hp).
Qed.




(** ** Score extraction *)

Import PyNum.

Lemma span_digits_app (ds r : string) :
  all_digits ds = true -> starts_with PyStr.isdigit r = false ->
  span_digits (ds ++ r) = (ds, r).
Proof.
  induction ds as [|c ds IH]; cbn; intros Hds Hr.
  - destruct r as [|c r]; [reflexivity|]. cbn in *. now rewrite Hr.
  - apply andb_true_iff in Hds as [Hc Hds]. now rewrite Hc, IH.
Qed.

Lemma span_digits_spec (s : string) :
  s = fst (span_digits s) ++ snd (span_digits s)
  /\ all_digits (fst (span_digits s)) = true
  /\ starts_with PyStr.isdigit (snd (span_digits s)) = false.
Proof.
  induction s as [|c s (IH1 & IH2 & IH3)]; cbn; [auto|].
  destruct (PyStr.isdigit c) eqn:Hc.
  - destruct (span_digits s) as [ds r]; cbn in *.
    repeat split; [now f_equal | now rewrite Hc | assumption].
  - cbn. now rewrite Hc.
Qed.

Lemma append_nil_r (s : string) : s ++ "" = s.
Proof. induction s as [|c s IH]; cbn; [reflexivity|now rewrite IH]. Qed.


Lemma length_append (a b : string) :
  String.length (a ++ b) = (String.length a + String.length b)%nat.
Proof. induction a as [|x a IH]; cbn; [reflexivity|now rewrite IH]. Qed.

Lemma span_digits_all (ds : string) :
  all_digits ds = true -> span_digits ds = (ds, "").
Proof.
  intros H. rewrite <- (append_nil_r ds) at 1. now apply span_digits_app.
Qed.

(** [float] accepts what the pattern captures. *)
Lemma py_float_integer (ip : string) :
  all_digits ip = true -> ip <> "" ->
  py_float ip = Ok (float_of_ratio (digits_value ip) 1).
Proof.
  intros Hip Hne. unfold py_float. rewrite (span_digits_all _ Hip).
  destruct ip; [contradiction|reflexivity].
Qed.

Lemma py_float_decimal (ip fp : string) :
  all_digits ip = true -> all_digits fp = true -> ip <> "" ->
  py_float (ip ++ "." ++ fp)
  = Ok (float_of_ratio (digits_value (ip ++ fp))
                       (10 ^ Z.of_nat (String.length fp))).
Proof.
  intros Hip Hfp Hne. unfold py_float.
  rewrite (span_digits_app ip ("." ++ fp) Hip) by reflexivity.
  cbn [append]. rewrite (span_digits_all _ Hfp).
  destruct ip; [contradiction|reflexivity].
Qed.

Lemma re_search_skip (pre s : string) :
  no_digit pre = true -> re_search_number (pre ++ s) = re_search_number s.
Proof.
  induction pre as [|c pre IH]; cbn; [reflexivity|].
  intros H. apply andb_true_iff in H as [Hc Hpre].
  apply negb_true_iff in Hc. now rewrite Hc, IH.
Qed.


Lemma re_search_at_digit (s : string) :
  starts_with PyStr.isdigit s = true ->
  re_search_number s = Some (match_number_at s).
Proof.
  destruct s as [|c s]; cbn; [discriminate|]. now intros ->.
Qed.


Lemma match_decimal (ip fp rest : string) :
  all_digits ip = true -> all_digits fp = true ->
  starts_with PyStr.isdigit rest = false ->
  match_number_at (ip ++ "." ++ fp ++ rest) = ip ++ "." ++ fp.
Proof.
  intros Hip Hfp Hr. unfold match_number_at.
  rewrite (span_digits_app ip ("." ++ fp ++ rest) Hip) by reflexivity.
  cbn [append]. now rewrite (span_digits_app _ _ Hfp Hr).
Qed.

(** The text captured at a digit is a decimal literal, so [float] returns. *)
Lemma match_number_shape (s : string) :
  starts_with PyStr.isdigit s = true ->
  exists ip, all_digits ip = true /\ ip <> "" /\
    (match_number_at s = ip
     \/ exists fp, all_digits fp = true /\ match_number_at s = ip ++ "." ++ fp).
Proof.
  intros Hs. unfold match_number_at.
  destruct (span_digits_spec s) as (Hsplit & Hip & Hrest).
  destruct (span_digits s) as [ip r]; cbn in *.
  exists ip. split; [assumption|]. split.
  { intros ->. cbn in Hsplit. subst r. congruence. }
  destruct r as [|c r]; [now left|].
  destruct (Ascii.eqb_spec "." c) as [<-|Hc].
  - right. exists (fst (span_digits r)). split; [|reflexivity].
    apply span_digits_spec.
  - left. destruct c as [[] [] [] [] [] [] [] []]; try reflexivity. now destruct Hc.
Qed.

Lemma py_float_of_match (s : string) :
  starts_with PyStr.isdigit s = true ->
  exists x, py_float (match_number_at s) = Ok x.
Proof.
  intros Hs. destruct (match_number_shape s Hs) as (ip & Hip & Hne & [->|(fp & Hfp & ->)]).
  - rewrite py_float_integer by assumption. eauto.
  - rewrite py_float_decimal by assumption. eauto.
Qed.

Lemma re_search_cases (s : string) :
  (re_search_number s = None /\ no_digit s = true)
  \/ exists x g, re_search_number s = Some g /\ py_float g = Ok x.
Proof.
  induction s as [|c s IH]; [now left|].
  cbn [re_search_number no_digit all_chars].
  destruct (PyStr.isdigit c) eqn:Hc.
  - right. destruct (py_float_of_match (String c s)) as [x Hx]; [exact Hc|].
    now exists x, (match_number_at (String c s)).
  - destruct IH as [[H1 H2]|H]; [left|right; exact H].
    split; [exact H1|]. exact H2.
Qed.

Lemma pow2_pos (k : Z) : 0 < 2 ^ Z.max 0 k.
Proof. apply Z.pow_pos_nonneg; lia. Qed.

Lemma cmp_int_float (z m e : Z) :
  cmp_scaled z 0 m e = (z * 2 ^ Z.max 0 (- e) ?= m * 2 ^ Z.max 0 e).
Proof.
  unfold cmp_scaled. destruct (Z.le_gt_cases 0 e).
  - rewrite (Z.min_l 0 e), (Z.max_l 0 (- e)), (Z.max_r 0 e) by lia.
    now rewrite ?Z.sub_0_r, ?Z.sub_diag, ?Z.sub_0_l.
  - rewrite (Z.min_r 0 e), (Z.max_r 0 (- e)), (Z.max_l 0 e) by lia.
    now rewrite ?Z.sub_0_r, ?Z.sub_diag, ?Z.sub_0_l.
Qed.

Lemma cmp_float_int (m e z : Z) :
  cmp_scaled m e z 0 = (m * 2 ^ Z.max 0 e ?= z * 2 ^ Z.max 0 (- e)).
Proof.
  unfold cmp_scaled. destruct (Z.le_gt_cases 0 e).
  - rewrite (Z.min_r e 0), (Z.max_l 0 (- e)), (Z.max_r 0 e) by lia.
    now rewrite ?Z.sub_0_r, ?Z.sub_diag, ?Z.sub_0_l.
  - rewrite (Z.min_l e 0), (Z.max_r 0 (- e)), (Z.max_l 0 e) by lia.
    now rewrite ?Z.sub_0_r, ?Z.sub_diag, ?Z.sub_0_l.
Qed.

(** Whatever number is converted, clamping brings it between the bounds. *)
Lemma clamp_within (lo hi : Z) (x : float) :
  lo <= hi -> within lo hi (clamp lo hi x).
Proof.
  intros Hle. unfold clamp, py_max, py_min.
  destruct x as [m e|]; cbn [py_ltb].
  - rewrite cmp_int_float.
    destruct (Z.compare_spec (lo * 2 ^ Z.max 0 (- e)) (m * 2 ^ Z.max 0 e)) as [E|L|G].
    + cbn [py_ltb]. destruct (lo <? hi); cbn; lia.
    + cbn [py_ltb]. rewrite cmp_float_int.
      destruct (Z.compare_spec (m * 2 ^ Z.max 0 e) (hi * 2 ^ Z.max 0 (- e)));
        cbn; lia.
    + cbn [py_ltb]. destruct (lo <? hi); cbn; lia.
  - cbn. lia.
Qed.

Lemma parse_score_cases (t : string) :
  (no_digit t = true /\ _parse_score t = Ok (PyFloat float_5_0)
   /\ _parse_rating t = Ok (PyFloat float_5_0))
  \/ exists x, _parse_score t = Ok (clamp 1 10 x)
               /\ _parse_rating t = Ok (clamp 0 10 x).
Proof.
  unfold _parse_score, _parse_rating.
  destruct (re_search_cases t) as [[-> Hn]|(x & g & -> & ->)].
  - left. split; [assumption|split; reflexivity].
  - right. now exists x.
Qed.

Lemma parse_first_number (pre g rest : string) (x : float) :
  no_digit pre = true ->
  starts_with PyStr.isdigit (g ++ rest) = true ->
  match_number_at (g ++ rest) = g ->
  py_float g = Ok x ->
  _parse_score (pre ++ g ++ rest) = Ok (clamp 1 10 x)
  /\ _parse_rating (pre ++ g ++ rest) = Ok (clamp 0 10 x).
Proof.
  intros Hpre Hd Hm Hx. unfold _parse_score, _parse_rating.
  rewrite (re_search_skip _ _ Hpre), (re_search_at_digit _ Hd), Hm, Hx.
  now split.
Qed.




(** ** The pipelines *)

Lemma parse_score_total (s : string) : exists v, _parse_score s = Ok v.
Proof.
  destruct (parse_score_cases s) as [(_ & H & _)|(x & H & _)]; eauto.
Qed.

Lemma parse_rating_total (s : string) : exists v, _parse_rating s = Ok v.
Proof.
  destruct (parse_score_cases s) as [(_ & _ & H)|(x & _ & H)]; eauto.
Qed.

Lemma dict_keys_set (d : dict) (k : string) (v : pyval) :
  dict_keys (dict_set d k v)
  = if existsb (String.eqb k) (dict_keys d) then dict_keys d
    else (dict_keys d ++ [k])%list.
Proof.
  unfold dict_keys.
  induction d as [|[k' v'] d IH]; cbn; [reflexivity|].
  rewrite (String.eqb_sym k k').
  destruct (String.eqb k' k); cbn; [reflexivity|].
  rewrite IH. now destruct (existsb (String.eqb k) (map fst d)).
Qed.

Lemma filter_absent_drop (ks l : list string) (x : string) :
  existsb (String.eqb x) ks = true ->
  filter (fun y => negb (existsb (String.eqb y) ks))
         (filter (fun y => negb (String.eqb y x)) l)
  = filter (fun y => negb (existsb (String.eqb y) ks)) l.
Proof.
  intros Hx. induction l as [|y l IH]; cbn; [reflexivity|].
  destruct (String.eqb_spec y x) as [->|Hne]; cbn.
  - now rewrite Hx.
  - now rewrite IH.
Qed.

Lemma filter_absent_snoc (ks l : list string) (x : string) :
  filter (fun y => negb (existsb (String.eqb y) (ks ++ [x])%list)) l
  = filter (fun y => negb (existsb (String.eqb y) ks))
           (filter (fun y => negb (String.eqb y x)) l).
Proof.
  induction l as [|y l IH]; cbn; [reflexivity|].
  rewrite existsb_app; cbn. rewrite orb_false_r.
  destruct (String.eqb y x); cbn.
  - now rewrite orb_true_r.
  - rewrite orb_false_r. now rewrite IH.
Qed.

Lemma filter_keeps_all {A} (l : list A) : filter (fun _ => true) l = l.
Proof. induction l as [|x l IH]; cbn; [reflexivity|now rewrite IH]. Qed.

Section ResumeRuns.

Variable o : ResumeAnalyzer.Oracle.
Variable resume_text : string.

Let ev := event ResumeAnalyzer.call.

Lemma analyze_sections_cons (section : string) (rest : list string)
    (acc : dict) (tr : list ev) :
  analyze_sections o resume_text (section :: rest) acc tr
  = let c := ContentEvaluator section resume_text in
    match content_evaluator o tr section resume_text with
    | Ok r =>
        match _parse_score (score r) with
        | Ok sc =>
            analyze_sections o resume_text rest
              (dict_set acc section
                 (VDict [("analysis", VStr (analysis r)); ("score", VNum sc)]))
              (tr ++ [Called c true])%list
        | Raise e => (Raise e, (tr ++ [Called c true])%list)
        end
    | Raise e => (Raise e, (tr ++ [Called c false])%list)
    end.
Proof.
  cbn [analyze_sections]. unfold bind, predict, lift.
  destruct (content_evaluator o tr section resume_text) as [r|e]; [|reflexivity].
  cbn [returned]. destruct (_parse_score (score r)); reflexivity.
Qed.

(** The loop either evaluates every section, one returned call each, or
    stops at the first call that raises. The keys it leaves are the old keys
    followed by the new section names, each once, in first-seen order. *)
Lemma analyze_sections_run (l : list string) :
  forall (acc : dict) (tr : list ev),
  exists evs : list ev,
    Forall (fun e => is_returned_call e = true) evs
    /\ ((exists sa,
           analyze_sections o resume_text l acc tr = (Ok sa, (tr ++ evs)%list)
           /\ List.length evs = List.length l
           /\ dict_keys sa
              = (dict_keys acc
                 ++ filter (fun y => negb (existsb (String.eqb y) (dict_keys acc)))
                           (first_seen l))%list)
        \/ (exists c msg,
              analyze_sections o resume_text l acc tr
              = (Raise msg, (tr ++ evs ++ [Called c false])%list))).
Proof.
  induction l as [|section rest IH]; intros acc tr.
  - exists []. split; [constructor|]. left. exists acc. cbn.
    now rewrite !app_nil_r.
  - rewrite analyze_sections_cons. cbv zeta.
    destruct (content_evaluator o tr section resume_text) as [r|msg] eqn:Hr.
    + destruct (parse_score_total (score r)) as [sc ->].
      set (acc' := dict_set acc section _).
      set (tr1 := (tr ++ _)%list).
      destruct (IH acc' tr1) as (evs & Hevs & [(sa & Hrun & Hlen & Hkeys)|(c & msg & Hrun)]).
      * exists (Called (ContentEvaluator section resume_text) true :: evs).
        split; [constructor; [reflexivity|assumption]|]. left. exists sa.
        split; [|split].
        -- rewrite Hrun. unfold tr1. now rewrite <- app_assoc.
        -- cbn. now rewrite Hlen.
        -- rewrite Hkeys. unfold acc'. rewrite dict_keys_set. cbn [first_seen filter].
           destruct (existsb (String.eqb section) (dict_keys acc)) eqn:Hin; cbn [negb].
           ++ now rewrite filter_absent_drop.
           ++ rewrite <- app_assoc. cbn. now rewrite filter_absent_snoc.
      * exists (Called (ContentEvaluator section resume_text) true :: evs).
        split; [constructor; [reflexivity|assumption]|]. right. exists c, msg.
        rewrite Hrun. unfold tr1. now rewrite <- app_assoc.
    + exists []. split; [constructor|]. right.
      exists (ContentEvaluator section resume_text), msg. reflexivity.
Qed.

(** [forward], stage by stage. *)
Lemma forward_stages (tr : list ev) :
  ResumeAnalyzer.forward o resume_text tr
  = match section_identifier o tr resume_text with
    | Raise e =>
        failed (tr ++ [Called (SectionIdentifier resume_text) false])%list e
    | Ok sections =>
        let section_list := stripped_pieces "," sections in
        match analyze_sections o resume_text section_list []
                (tr ++ [Called (SectionIdentifier resume_text) true])%list with
        | (Raise e, tr2) => failed tr2 e
        | (Ok sa, tr2) =>
            match overall_assessor o tr2 resume_text with
            | Raise e =>
                failed (tr2 ++ [Called (OverallAssessor resume_text) false])%list e
            | Ok a =>
                (Ok (complete_result section_list sa a),
                 (tr2 ++ [Called (OverallAssessor resume_text) true])%list)
            end
        end
    end.
Proof.
  unfold ResumeAnalyzer.forward, try_except, ResumeAnalyzer.forward_body.
  unfold bind at 1. unfold predict at 1.
  destruct (section_identifier o tr resume_text) as [sections|e]; [|reflexivity].
  cbn [returned]. cbv zeta. unfold bind at 1.
  destruct (analyze_sections _ _ _ _ _) as [[sa|e] tr2]; [|reflexivity].
  unfold bind, predict, ret.
  destruct (overall_assessor o tr2 resume_text) as [a|e]; reflexivity.
Qed.

(** Every run of [forward] is of one of two kinds: all calls returned and
    the result is complete, or one call raised, it is the last call, and the
    result is the empty dictionary. *)
Lemma forward_run (tr : list ev) :
  exists evs : list ev,
    Forall (fun e => is_returned_call e = true) evs
    /\ ((exists d,
           ResumeAnalyzer.forward o resume_text tr = (Ok d, (tr ++ evs)%list)
           /\ dict_keys d = resume_keys)
        \/ (exists c msg,
              ResumeAnalyzer.forward o resume_text tr
              = (Ok [],
                 (tr ++ evs ++ [Called c false;
                                StError ("Analysis failed: " ++ msg)])%list))).
Proof.
  rewrite forward_stages.
  destruct (section_identifier o tr resume_text) as [sections|e].
  - cbv zeta.
    destruct (analyze_sections_run (stripped_pieces "," sections) []
                (tr ++ [Called (SectionIdentifier resume_text) true])%list)
      as (evs & Hevs & [(sa & -> & _ & _)|(c & msg & ->)]).
    + destruct (overall_assessor o _ resume_text) as [a|e].
      * exists (Called (SectionIdentifier resume_text) true
                :: evs ++ [Called (OverallAssessor resume_text) true])%list.
        split.
        { constructor; [reflexivity|]. apply Forall_app. split; [assumption|].
          now constructor. }
        left. exists (complete_result (stripped_pieces "," sections) sa a).
        split; [|reflexivity].
        f_equal. rewrite <- !app_assoc. reflexivity.
      * exists (Called (SectionIdentifier resume_text) true :: evs).
        split; [constructor; [reflexivity|assumption]|].
        right. exists (OverallAssessor resume_text), e. unfold failed.
        f_equal. rewrite <- !app_assoc. reflexivity.
    + exists (Called (SectionIdentifier resume_text) true :: evs).
      split; [constructor; [reflexivity|assumption]|].
      right. exists c, msg. unfold failed.
      f_equal. rewrite <- !app_assoc. reflexivity.
  - exists []. split; [constructor|]. right.
    exists (SectionIdentifier resume_text), e. unfold failed.
    f_equal. rewrite <- !app_assoc. reflexivity.
Qed.

End ResumeRuns.

Section ReviewRuns.

Import AdvancedMovieReviewer.

Variable o : AdvancedMovieReviewer.Oracle.
Variable review : string.

Let ev := event AdvancedMovieReviewer.call.

(** [forward], call by call. *)
Lemma review_forward_stages (tr : list ev) :
  AdvancedMovieReviewer.forward o review tr
  = match analysis o tr review with
    | Raise e => failed (tr ++ [Called (AnalysisCall review) false])%list e
    | Ok a =>
        let tr1 := (tr ++ [Called (AnalysisCall review) true])%list in
        match genre_classifier o tr1 review with
        | Raise e => failed (tr1 ++ [Called (GenreClassifier review) false])%list e
        | Ok genres =>
            let tr2 := (tr1 ++ [Called (GenreClassifier review) true])%list in
            match recommender o tr2 review with
            | Raise e => failed (tr2 ++ [Called (Recommender review) false])%list e
            | Ok c =>
                let tr3 := (tr2 ++ [Called (Recommender review) true])%list in
                match _parse_rating (rating a) with
                | Ok r => (Ok (review_result a genres c r), tr3)
                | Raise e => failed tr3 e
                end
            end
        end
    end.
Proof.
  unfold AdvancedMovieReviewer.forward, try_except,
    AdvancedMovieReviewer.forward_body, bind, predict, lift, ret.
  destruct (analysis o tr review) as [a|e]; [|reflexivity].
  cbn [returned]. cbv zeta.
  destruct (genre_classifier o _ review) as [genres|e]; [|reflexivity].
  cbn [returned].
  destruct (recommender o _ review) as [c|e]; [|reflexivity].
  cbn [returned].
  destruct (_parse_rating (rating a)); reflexivity.
Qed.

Lemma review_forward_run (tr : list ev) :
  exists evs : list ev,
    Forall (fun e => is_returned_call e = true) evs
    /\ ((exists d,
           AdvancedMovieReviewer.forward o review tr = (Ok d, (tr ++ evs)%list)
           /\ dict_keys d = review_keys)
        \/ (exists c msg,
              AdvancedMovieReviewer.forward o review tr
              = (Ok [],
                 (tr ++ evs ++ [Called c false;
                                StError ("Analysis failed: " ++ msg)])%list))).
Proof.
  rewrite review_forward_stages.
  destruct (analysis o tr review) as [a|e].
  - cbv zeta. destruct (genre_classifier o _ review) as [genres|e].
    + destruct (recommender o _ review) as [c|e].
      * destruct (parse_rating_total (rating a)) as [r ->].
        exists [Called (AnalysisCall review) true;
                Called (GenreClassifier review) true;
                Called (Recommender review) true].
        split; [repeat constructor|]. left.
        exists (review_result a genres c r). split; [|reflexivity].
        f_equal. rewrite <- !app_assoc. reflexivity.
      * exists [Called (AnalysisCall review) true;
                Called (GenreClassifier review) true].
        split; [repeat constructor|]. right.
        exists (Recommender review), e. unfold failed.
        f_equal. rewrite <- !app_assoc. reflexivity.
    + exists [Called (AnalysisCall review) true].
      split; [repeat constructor|]. right.
      exists (GenreClassifier review), e. unfold failed.
      f_equal. rewrite <- !app_assoc. reflexivity.
  - exists []. split; [constructor|]. right.
    exists (AnalysisCall review), e. unfold failed.
    f_equal. rewrite <- !app_assoc. reflexivity.
Qed.

End ReviewRuns.

(** ** Error handling of the pipelines *)

(** ** The loop over the sections, step by step *)

Lemma dict_get_set_same (d : dict) (k : string) (v : pyval) :
  dict_get (dict_set d k v) k = Some v.
Proof.
  induction d as [|[k' v'] d IH]; cbn.
  - now rewrite String.eqb_refl.
  - destruct (String.eqb k' k) eqn:E; cbn; rewrite E; [reflexivity|exact IH].
Qed.

Lemma dict_get_set_other (d : dict) (k k' : string) (v : pyval) :
  k <> k' -> dict_get (dict_set d k v) k' = dict_get d k'.
Proof.
  intros Hne. induction d as [|[k0 v0] d IH]; cbn.
  - now apply String.eqb_neq in Hne as ->.
  - destruct (String.eqb_spec k0 k) as [->|Hk]; cbn.
    + now apply String.eqb_neq in Hne as ->.
    + now rewrite IH.
Qed.

Lemma dict_set_values (P : pyval -> Prop) (d : dict) (k : string) (v : pyval) :
  Forall P (map snd d) -> P v -> Forall P (map snd (dict_set d k v)).
Proof.
  intros Hd Hv. induction d as [|[k' v'] d IH]; cbn.
  - now repeat constructor.
  - cbn in Hd. inversion Hd as [|? ? Hv' Hd']; subst.
    destruct (String.eqb k' k); cbn; constructor; auto.
Qed.

Lemma parse_score_within (s : string) (n : pynum) :
  ResumeAnalyzer._parse_score s = Ok n -> within 1 10 n.
Proof.
  destruct (parse_score_cases s) as [(_ & -> & _)|(x & -> & _)];
    intros H; injection H as <-.
  - cbn. lia.
  - apply clamp_within. lia.
Qed.

Lemma parse_rating_within (s : string) (n : pynum) :
  AdvancedMovieReviewer._parse_rating s = Ok n -> within 0 10 n.
Proof.
  destruct (parse_score_cases s) as [(_ & _ & ->)|(x & _ & ->)];
    intros H; injection H as <-.
  - cbn. lia.
  - apply clamp_within. lia.
Qed.

Section ResumeLoop.

Import ResumeAnalyzer.

Variable o : ResumeAnalyzer.Oracle.
Variable resume_text : string.

Let ev := event ResumeAnalyzer.call.

(** The loop over two lists in a row is the loop over the first followed by
    the loop over the second. *)
Lemma analyze_sections_app (l1 l2 : list string) :
  forall (acc : dict) (tr : list ev),
    analyze_sections o resume_text (l1 ++ l2) acc tr
    = match analyze_sections o resume_text l1 acc tr with
      | (Ok acc1, tr1) => analyze_sections o resume_text l2 acc1 tr1
      | (Raise e, tr1) => (Raise e, tr1)
      end.
Proof.
  induction l1 as [|x l1 IH]; intros acc tr; [reflexivity|].
  rewrite <- app_comm_cons, !analyze_sections_cons. cbv zeta.
  destruct (content_evaluator o tr x resume_text) as [r|e]; [|reflexivity].
  destruct (_parse_score (score r)); [apply IH|reflexivity].
Qed.

(** A completed loop has issued one returned evaluator call per listed
    section, in list order. *)
Lemma analyze_sections_trace (l : list string) :
  forall (acc sa : dict) (tr tr' : list ev),
    analyze_sections o resume_text l acc tr = (Ok sa, tr') ->
    tr' = (tr ++ map (fun s => Called (ContentEvaluator s resume_text) true) l)%list.
Proof.
  induction l as [|x l IH]; intros acc sa tr tr' Hrun.
  - cbn in Hrun. unfold ret in Hrun. injection Hrun as _ <-.
    now rewrite app_nil_r.
  - rewrite analyze_sections_cons in Hrun. cbv zeta in Hrun.
    destruct (content_evaluator o tr x resume_text) as [r|e]; [|discriminate].
    destruct (_parse_score (score r)) as [sc|e]; [|discriminate].
    apply IH in Hrun. rewrite Hrun, <- app_assoc. reflexivity.
Qed.

(** An interrupted loop stopped at the first section whose call raised. *)
Lemma analyze_sections_stop (l : list string) :
  forall (acc : dict) (tr tr' : list ev) (e : string),
    analyze_sections o resume_text l acc tr = (Raise e, tr') ->
    exists l1 x l2,
      l = (l1 ++ x :: l2)%list
      /\ tr' = (tr ++ map (fun s => Called (ContentEvaluator s resume_text) true) l1
                ++ [Called (ContentEvaluator x resume_text) false])%list.
Proof.
  induction l as [|x l IH]; intros acc tr tr' e Hrun.
  - cbn in Hrun. discriminate.
  - rewrite analyze_sections_cons in Hrun. cbv zeta in Hrun.
    destruct (content_evaluator o tr x resume_text) as [r|e'].
    + destruct (parse_score_total (score r)) as [sc Hsc]. rewrite Hsc in Hrun.
      apply IH in Hrun as (l1 & y & l2 & -> & ->).
      exists (x :: l1), y, l2. split; [reflexivity|].
      cbn [map]. rewrite <- !app_assoc. reflexivity.
    + injection Hrun as _ <-. exists [], x, l. split; reflexivity.
Qed.

(** The loop leaves alone the entries of the names it does not meet. *)
Lemma analyze_sections_other (l : list string) (x : string) :
  ~ In x l ->
  forall (acc sa : dict) (tr tr' : list ev),
    analyze_sections o resume_text l acc tr = (Ok sa, tr') ->
    dict_get sa x = dict_get acc x.
Proof.
  induction l as [|y l IH]; intros Hx acc sa tr tr' Hrun.
  - cbn in Hrun. unfold ret in Hrun. now injection Hrun as <- _.
  - rewrite analyze_sections_cons in Hrun. cbv zeta in Hrun.
    destruct (content_evaluator o tr y resume_text) as [r|e]; [|discriminate].
    destruct (_parse_score (score r)) as [sc|e]; [|discriminate].
    rewrite (IH ltac:(cbn in Hx; tauto) _ _ _ _ Hrun).
    apply dict_get_set_other. cbn in Hx. intros ->. tauto.
Qed.

(** Every entry the loop writes is an analysis with a score from 1 to 10. *)
Lemma analyze_sections_scored (l : list string) :
  forall (acc sa : dict) (tr tr' : list ev),
    Forall scored_evaluation (map snd acc) ->
    analyze_sections o resume_text l acc tr = (Ok sa, tr') ->
    Forall scored_evaluation (map snd sa).
Proof.
  induction l as [|y l IH]; intros acc sa tr tr' Hacc Hrun.
  - cbn in Hrun. unfold ret in Hrun. now injection Hrun as <- _.
  - rewrite analyze_sections_cons in Hrun. cbv zeta in Hrun.
    destruct (content_evaluator o tr y resume_text) as [r|e]; [|discriminate].
    destruct (_parse_score (score r)) as [sc|e] eqn:Hsc; [|discriminate].
    apply (IH _ _ _ _ (dict_set_values _ _ _ _ Hacc
                         ltac:(exists (analysis r), sc; split;
                               [reflexivity|exact (parse_score_within _ _ Hsc)]))
              Hrun).
Qed.

(** The entry the loop leaves under a name is the reply to the last call
    for that name, with its score parsed. *)
Lemma analyze_sections_last (l1 l2 : list string) (x : string) :
  ~ In x l2 ->
  forall (acc sa : dict) (tr tr' : list ev),
    analyze_sections o resume_text (l1 ++ x :: l2) acc tr = (Ok sa, tr') ->
    exists r sc,
      content_evaluator o
        (tr ++ map (fun s => Called (ContentEvaluator s resume_text) true) l1)%list
        x resume_text = Ok r
      /\ _parse_score (score r) = Ok sc
      /\ dict_get sa x
         = Some (VDict [("analysis", VStr (analysis r)); ("score", VNum sc)]).
Proof.
  intros Hx acc sa tr tr' Hloop.
  rewrite analyze_sections_app in Hloop.
  destruct (analyze_sections o resume_text l1 acc tr) as [[acc1|e] tr1] eqn:H1;
    [|discriminate].
  apply analyze_sections_trace in H1. subst tr1.
  rewrite analyze_sections_cons in Hloop. cbv zeta in Hloop.
  destruct (content_evaluator o _ x resume_text) as [r|e]; [|discriminate].
  destruct (_parse_score (score r)) as [sc|e] eqn:Hsc; [|discriminate].
  exists r, sc. split; [reflexivity|]. split; [exact Hsc|].
  rewrite (analyze_sections_other l2 x Hx _ _ _ _ Hloop).
  apply dict_get_set_same.
Qed.

(** The keys of a completed loop that started from the empty dictionary
    are the listed names, each once, in first-seen order. *)
Lemma analyze_sections_keys (l : list string) (sa : dict) (tr tr' : list ev) :
  analyze_sections o resume_text l [] tr = (Ok sa, tr') ->
  dict_keys sa = first_seen l.
Proof.
  intros Hloop.
  destruct (analyze_sections_run o resume_text l [] tr)
    as (evs & _ & [(sa' & Hsa & _ & Hkeys)|(c & msg & Hsa)]);
    rewrite Hsa in Hloop; [|discriminate].
  injection Hloop as <- _. rewrite Hkeys. cbn. apply filter_keeps_all.
Qed.

Lemma evaluator_calls_returned (l : list string) :
  Forall (fun e : ev => is_returned_call e = true)
         (map (fun s => Called (ContentEvaluator s resume_text) true) l).
Proof.
  apply Forall_forall. intros e He.
  apply in_map_iff in He as (s & <- & _). reflexivity.
Qed.

End ResumeLoop.

(** C1, as the code has it: one [try] block encloses all stages of either
    [forward], and every run is of one of two kinds. Either every predictor
    call returns: the calls are then the section identifier, the evaluator
    once for each listed section in list order and the overall assessor
    (in the movie reviewer: the analysis, the genre classifier and the
    recommender), and the result is the complete one: it holds the listed
    sections, under every one of them the analysis that the evaluator
    returned (at its last call for a repeated name) with a score from 1 to
    10, and the summary of the overall assessment; for replies of ASCII
    characters the sections, the scores and the whole result are spelled
    out from the replies. Or one call raises, in whichever stage: no
    further call is issued, the error is shown and the empty dictionary is
    returned. *)
Theorem forward_stops_at_first_failure :
  (forall (o : ResumeAnalyzer.Oracle) resume_text tr,
     exists evs,
       Forall (fun e => is_returned_call e = true) evs
       /\ ((exists sections names sa a d,
              let evaluated l :=
                (tr ++ Called (SectionIdentifier resume_text) true
                    :: map (fun s => Called (ContentEvaluator s resume_text) true)
                           l)%list in
              ResumeAnalyzer.section_identifier o tr resume_text = Ok sections
              /\ (ascii_only sections = true ->
                  names = stripped_pieces "," sections)
              /\ ResumeAnalyzer.overall_assessor o (evaluated names) resume_text
                 = Ok a
              /\ evs = (Called (SectionIdentifier resume_text) true
                        :: map (fun s => Called (ContentEvaluator s resume_text) true)
                               names
                        ++ [Called (OverallAssessor resume_text) true])%list
              /\ ResumeAnalyzer.forward o resume_text tr
                 = (Ok d, (tr ++ evs)%list)
              /\ dict_keys d = resume_keys
              /\ dict_get d "sections" = Some (VList names)
              /\ dict_get d "section_analyses" = Some (VDict sa)
              /\ dict_get d "overall_summary"
                 = Some (VStr (ResumeAnalyzer.summary a))
              /\ (ascii_assessment a = true -> d = complete_result names sa a)
              /\ dict_keys sa = first_seen names
              /\ (forall l1 x l2,
                    names = (l1 ++ x :: l2)%list -> ~ In x l2 ->
                    exists r sc,
                      ResumeAnalyzer.content_evaluator o (evaluated l1) x
                        resume_text = Ok r
                      /\ dict_get sa x
                         = Some (VDict [("analysis",
                                         VStr (ResumeAnalyzer.analysis r));
                                        ("score", VNum sc)])
                      /\ within 1 10 sc
                      /\ (ascii_only (ResumeAnalyzer.score r) = true ->
                          ResumeAnalyzer._parse_score (ResumeAnalyzer.score r)
                          = Ok sc)))
           \/ (exists c msg,
                 ResumeAnalyzer.forward o resume_text tr
                 = (Ok [],
                    (tr ++ evs ++ [Called c false;
                                   StError ("Analysis failed: " ++ msg)])%list))))
  /\ (forall (o : AdvancedMovieReviewer.Oracle) review tr,
        exists evs,
          Forall (fun e => is_returned_call e = true) evs
          /\ ((exists a genres c r d,
                 let ac := Called (AdvancedMovieReviewer.AnalysisCall review) true in
                 let gc :=
                   Called (AdvancedMovieReviewer.GenreClassifier review) true in
                 let rc := Called (AdvancedMovieReviewer.Recommender review) true in
                 AdvancedMovieReviewer.analysis o tr review = Ok a
                 /\ AdvancedMovieReviewer.genre_classifier o (tr ++ [ac])%list
                      review = Ok genres
                 /\ AdvancedMovieReviewer.recommender o (tr ++ [ac; gc])%list
                      review = Ok c
                 /\ evs = [ac; gc; rc]
                 /\ AdvancedMovieReviewer.forward o review tr
                    = (Ok d, (tr ++ evs)%list)
                 /\ dict_keys d = review_keys
                 /\ dict_get d "plot_summary"
                    = Some (VStr (AdvancedMovieReviewer.plot_summary a))
                 /\ dict_get d "character_analysis"
                    = Some (VStr (AdvancedMovieReviewer.character_analysis a))
                 /\ dict_get d "cultural_impact"
                    = Some (VStr (AdvancedMovieReviewer.cultural_impact a))
                 /\ dict_get d "rating" = Some (VNum r)
                 /\ within 0 10 r
                 /\ (ascii_review a genres c = true ->
                     AdvancedMovieReviewer._parse_rating
                       (AdvancedMovieReviewer.rating a) = Ok r
                     /\ d = review_result a genres c r))
              \/ (exists c msg,
                    AdvancedMovieReviewer.forward o review tr
                    = (Ok [],
                       (tr ++ evs ++ [Called c false;
                                      StError ("Analysis failed: " ++ msg)])%list)))).
Proof.
  split.
  - intros o resume_text tr. rewrite forward_stages.
    destruct (ResumeAnalyzer.section_identifier o tr resume_text)
      as [sections|e] eqn:Hs.
    + cbv zeta.
      destruct (analyze_sections o resume_text (stripped_pieces "," sections) []
                  (tr ++ [Called (SectionIdentifier resume_text) true])%list)
        as [[sa|e] tr2] eqn:Hloop.
      * pose proof (analyze_sections_trace _ _ _ _ _ _ _ Hloop) as Htr.
        rewrite <- app_assoc in Htr. cbn [app] in Htr. subst tr2.
        destruct (ResumeAnalyzer.overall_assessor o _ resume_text)
          as [a|e] eqn:Ha.
        -- exists (Called (SectionIdentifier resume_text) true
                   :: map (fun s => Called (ContentEvaluator s resume_text) true)
                          (stripped_pieces "," sections)
                   ++ [Called (OverallAssessor resume_text) true])%list.
           split.
           { constructor; [reflexivity|]. apply Forall_app. split.
             - apply evaluator_calls_returned.
             - now constructor. }
           left.
           exists sections, (stripped_pieces "," sections), sa, a,
             (complete_result (stripped_pieces "," sections) sa a).
           split; [reflexivity|]. split; [reflexivity|].
           split; [exact Ha|]. split; [reflexivity|].
           split; [f_equal; rewrite <- !app_assoc; reflexivity|].
           split; [reflexivity|]. split; [reflexivity|].
           split; [reflexivity|]. split; [reflexivity|].
           split; [reflexivity|].
           split; [exact (analyze_sections_keys _ _ _ _ _ _ Hloop)|].
           intros l1 x l2 Hl Hx. rewrite Hl in Hloop.
           destruct (analyze_sections_last _ _ _ _ _ Hx _ _ _ _ Hloop)
             as (r & sc & Hr & Hsc & Hget).
           exists r, sc. rewrite <- app_assoc in Hr. cbn [app] in Hr.
           split; [exact Hr|]. split; [exact Hget|].
           split; [exact (parse_score_within _ _ Hsc)|]. intros _. exact Hsc.
        -- exists (Called (SectionIdentifier resume_text) true
                   :: map (fun s => Called (ContentEvaluator s resume_text) true)
                          (stripped_pieces "," sections)).
           split; [constructor; [reflexivity|apply evaluator_calls_returned]|].
           right. exists (OverallAssessor resume_text), e. unfold failed.
           f_equal. rewrite <- !app_assoc. reflexivity.
      * apply analyze_sections_stop in Hloop as (l1 & x & l2 & _ & ->).
        exists (Called (SectionIdentifier resume_text) true
                :: map (fun s => Called (ContentEvaluator s resume_text) true) l1).
        split; [constructor; [reflexivity|apply evaluator_calls_returned]|].
        right. exists (ContentEvaluator x resume_text), e. unfold failed.
        f_equal. rewrite <- !app_assoc. reflexivity.
    + exists []. split; [constructor|]. right.
      exists (SectionIdentifier resume_text), e. unfold failed.
      f_equal. rewrite <- !app_assoc. reflexivity.
  - intros o review tr. rewrite review_forward_stages.
    destruct (AdvancedMovieReviewer.analysis o tr review) as [a|e] eqn:Ha.
    + cbv zeta.
      destruct (AdvancedMovieReviewer.genre_classifier o _ review)
        as [genres|e] eqn:Hg.
      * destruct (AdvancedMovieReviewer.recommender o ((tr ++ _) ++ _)%list
                    review) as [c|e] eqn:Hc.
        -- destruct (parse_rating_total (AdvancedMovieReviewer.rating a))
             as [r Hr].
           rewrite Hr. rewrite <- app_assoc in Hc.
           exists [Called (AdvancedMovieReviewer.AnalysisCall review) true;
                   Called (AdvancedMovieReviewer.GenreClassifier review) true;
                   Called (AdvancedMovieReviewer.Recommender review) true].
           split; [repeat constructor|]. left.
           exists a, genres, c, r, (review_result a genres c r).
           split; [reflexivity|]. split; [reflexivity|].
           split; [exact Hc|]. split; [reflexivity|].
           split; [f_equal; rewrite <- !app_assoc; reflexivity|].
           split; [reflexivity|]. split; [reflexivity|].
           split; [reflexivity|]. split; [reflexivity|].
           split; [reflexivity|].
           split; [exact (parse_rating_within _ _ Hr)|].
           intros _. split; [exact Hr|reflexivity].
        -- exists [Called (AdvancedMovieReviewer.AnalysisCall review) true;
                   Called (AdvancedMovieReviewer.GenreClassifier review) true].
           split; [repeat constructor|]. right.
           exists (AdvancedMovieReviewer.Recommender review), e. unfold failed.
           f_equal. rewrite <- !app_assoc. reflexivity.
      * exists [Called (AdvancedMovieReviewer.AnalysisCall review) true].
        split; [repeat constructor|]. right.
        exists (AdvancedMovieReviewer.GenreClassifier review), e. unfold failed.
        f_equal. rewrite <- !app_assoc. reflexivity.
    + exists []. split; [constructor|]. right.
      exists (AdvancedMovieReviewer.AnalysisCall review), e. unfold failed.
      f_equal. rewrite <- !app_assoc. reflexivity.
Qed.

Lemma forward_stops_at_first_failure_witness :
  exists r sc,
    ResumeAnalyzer.content_evaluator sample_oracle
      [Called (SectionIdentifier "doc") true;
       Called (ContentEvaluator "b" "doc") true;
       Called (ContentEvaluator "a" "doc") true] "b" "doc" = Ok r
    /\ dict_get sample_analyses "b"
       = Some (VDict [("analysis", VStr (ResumeAnalyzer.analysis r));
                      ("score", VNum sc)])
    /\ within 1 10 sc
    /\ (ascii_only (ResumeAnalyzer.score r) = true ->
        ResumeAnalyzer._parse_score (ResumeAnalyzer.score r) = Ok sc).
Proof.
  destruct forward_stops_at_first_failure as [Hresume _].
  destruct (Hresume sample_oracle "doc" [])
    as (evs & _ & [(sections & names & sa & a & d & H)|(c & msg & Hrun)]).
  - cbv zeta in H.
    destruct H as (Hs & Hnames & _ & _ & Hrun & _ & _ & Hsa & _ & _ & _ & Hlast).
    vm_compute in Hs. injection Hs as <-.
    specialize (Hnames eq_refl). subst names.
    assert (Hsa' : sa = sample_analyses).
    { apply (f_equal (fun p => match fst p with
                               | Ok d => dict_get d "section_analyses"
                               | Raise _ => None
                               end)) in Hrun.
      cbn [fst] in Hrun. rewrite Hsa in Hrun.
      vm_compute in Hrun. injection Hrun as Hd. symmetry. exact Hd. }
    subst sa. apply (Hlast ["b"; "a"] "b" []); [reflexivity|intros []].
  - vm_compute in Hrun. discriminate.
Defined.

(** C1, as stated, fails: the evaluator raises for section A only, and the
    result holds neither the evaluation of section B nor the overall
    assessment, although both predictors would have answered. *)
Lemma unit_failure_empties_result :
  let o := test_double "A, B" (String.eqb "A") in
  (exists r, ResumeAnalyzer.content_evaluator o [] "B" "doc" = Ok r)
  /\ (exists a, ResumeAnalyzer.overall_assessor o [] "doc" = Ok a)
  /\ ResumeAnalyzer.forward o "doc" []
     = (Ok [],
        [Called (SectionIdentifier "doc") true;
         Called (ContentEvaluator "A" "doc") false;
         StError "Analysis failed: timeout"])
  /\ dict_get [] "section_analyses" = None
  /\ dict_get [] "overall_summary" = None.
Proof.
  cbv zeta. split; [eexists; reflexivity|]. split; [eexists; reflexivity|].
  split; [|split; reflexivity].
  vm_compute. reflexivity.
Qed.

(** C9: either [forward] returns the empty dictionary or a dictionary with
    all its keys, never one with only some of them. *)
Theorem forward_all_keys_or_none :
  (forall (o : ResumeAnalyzer.Oracle) resume_text tr,
     exists d tr',
       ResumeAnalyzer.forward o resume_text tr = (Ok d, tr')
       /\ (d = [] \/ dict_keys d = resume_keys))
  /\ (forall (o : AdvancedMovieReviewer.Oracle) review tr,
        exists d tr',
          AdvancedMovieReviewer.forward o review tr = (Ok d, tr')
          /\ (d = [] \/ dict_keys d = review_keys)).
Proof.
  split.
  - intros o resume_text tr.
    destruct (forward_run o resume_text tr)
      as (evs & _ & [(d & -> & Hk)|(c & msg & ->)]); eauto 6.
  - intros o review tr.
    destruct (review_forward_run o review tr)
      as (evs & _ & [(d & -> & Hk)|(c & msg & ->)]); eauto 6.
Qed.

(** ** Sections of a resume *)






(** ** A reply without usable names *)

Lemma lstrip_blank (p : string) :
  all_chars PyStr.isspace p = true -> PyStr.lstrip p = "".
Proof.
  induction p as [|c p IH]; cbn; [reflexivity|].
  intros H. apply andb_true_iff in H as [-> Hp]. now apply IH.
Qed.

Lemma split_blank (s : string) :
  all_chars (fun c => PyStr.isspace c || Ascii.eqb c ",") s = true ->
  Forall (fun p => all_chars PyStr.isspace p = true) (PyStr.split "," s).
Proof.
  induction s as [|c s IH]; cbn; intros H.
  - now repeat constructor.
  - apply andb_true_iff in H as [Hc Hs]. specialize (IH Hs).
    destruct (Ascii.eqb c ",") eqn:E.
    + now constructor.
    + rewrite orb_false_r in Hc.
      destruct (PyStr.split "," s) as [|p ps] eqn:Esplit;
        [now destruct (split_not_nil "," s)|].
      inversion IH as [|? ? Hp Hps]; subst.
      constructor; [cbn; now rewrite Hc|assumption].
Qed.

(** A reply made of blanks and commas only yields no section name. *)
Lemma blank_reply_has_no_sections (s : string) :
  all_chars (fun c => PyStr.isspace c || Ascii.eqb c ",") s = true ->
  stripped_pieces "," s = [].
Proof.
  intros H. unfold stripped_pieces.
  generalize (split_blank s H). generalize (PyStr.split "," s).
  intros l HF. induction HF as [|p ps Hp _ IH]; [reflexivity|].
  assert (Hstrip : PyStr.strip p = "")
    by (unfold PyStr.strip; now rewrite lstrip_blank).
  cbn [filter]. rewrite Hstrip. exact IH.
Qed.

(** C8: when the reply of the section identifier yields no section name,
    [forward] calls no evaluator and goes on to the overall assessor; if
    that call returns, the result is complete, with an empty list of
    sections and no evaluation; nothing is raised on account of the empty
    list. *)
Theorem forward_without_sections
    (o : ResumeAnalyzer.Oracle) (resume_text sections : string)
    (tr : list (event ResumeAnalyzer.call)) :
  ResumeAnalyzer.section_identifier o tr resume_text = Ok sections ->
  stripped_pieces "," sections = [] ->
  let tr1 := (tr ++ [Called (SectionIdentifier resume_text) true])%list in
  ResumeAnalyzer.forward o resume_text tr
  = match ResumeAnalyzer.overall_assessor o tr1 resume_text with
    | Ok a =>
        (Ok (complete_result [] [] a),
         (tr1 ++ [Called (OverallAssessor resume_text) true])%list)
    | Raise e =>
        failed (tr1 ++ [Called (OverallAssessor resume_text) false])%list e
    end.
Proof.
  intros Hs Hnone tr1. rewrite forward_stages, Hs. cbv zeta. rewrite Hnone.
  cbn [analyze_sections]. unfold ret. reflexivity.
Qed.

Lemma forward_without_sections_witness :
  ResumeAnalyzer.forward (test_double " , ,, " (fun _ => true)) "doc" []
  = (Ok (complete_result [] [] sample_assessment),
     [Called (SectionIdentifier "doc") true;
      Called (OverallAssessor "doc") true]).
Proof.
  apply (forward_without_sections
           (test_double " , ,, " (fun _ => true)) "doc" " , ,, " []).
  - reflexivity.
  - apply blank_reply_has_no_sections. reflexivity.
Defined.

(** ** The minimum length of a resume *)



(** * Printing a score and reading it again *)

(** ** Rounding *)

Lemma round_half_even_bounds (p q : Z) :
  0 <= p -> 0 < q ->
  q * (2 * round_half_even p q - 1) <= 2 * p <= q * (2 * round_half_even p q + 1).
Proof.
  intros Hp Hq. unfold round_half_even.
  pose proof (Z.div_mod p q ltac:(lia)) as Hdm.
  pose proof (Z.mod_pos_bound p q Hq) as Hr.
  destruct (Z.ltb_spec (2 * (p mod q)) q); [nia|].
  destruct (Z.ltb_spec q (2 * (p mod q))); [nia|].
  destruct (Z.even (p / q)); nia.
Qed.

Lemma round_half_even_between (p q a b : Z) :
  0 <= p -> 0 < q -> a * q <= p -> p <= b * q ->
  a <= round_half_even p q <= b.
Proof.
  intros Hp Hq Ha Hb. unfold round_half_even.
  pose proof (Z.div_mod p q ltac:(lia)) as Hdm.
  pose proof (Z.mod_pos_bound p q Hq) as Hr.
  assert (a <= p / q) by (apply Z.div_le_lower_bound; lia).
  assert (p / q <= b) by (apply Z.div_le_upper_bound; lia).
  destruct (Z.ltb_spec (2 * (p mod q)) q); [lia|].
  assert (p / q < b) by nia.
  destruct (Z.ltb_spec q (2 * (p mod q))); [lia|].
  destruct (Z.even (p / q)); lia.
Qed.

Lemma round_half_even_unique (p q m : Z) :
  0 <= p -> 0 < q ->
  q * (2 * m - 1) < 2 * p < q * (2 * m + 1) ->
  round_half_even p q = m.
Proof.
  intros Hp Hq Hm.
  pose proof (round_half_even_bounds p q Hp Hq) as Hb.
  set (r := round_half_even p q) in *. nia.
Qed.

(** ** The binary exponent *)

Lemma ratio_ge_pow2_shift (p q e j : Z) :
  0 < q -> 0 <= j ->
  ratio_ge_pow2 p q (e + j) <-> 2 ^ j * scaled_den q e <= scaled_num p e.
Proof.
  intros Hq Hj. unfold ratio_ge_pow2, scaled_den, scaled_num.
  destruct (Z.le_gt_cases 0 e) as [He|He].
  - rewrite (Z.max_r 0 (e + j)), (Z.max_l 0 (- (e + j))), (Z.max_r 0 e),
      (Z.max_l 0 (- e)) by lia.
    rewrite Z.pow_add_r by lia.
    replace (q * (2 ^ e * 2 ^ j)) with (2 ^ j * (q * 2 ^ e)) by ring.
    reflexivity.
  - rewrite (Z.max_l 0 e), (Z.max_r 0 (- e)) by lia.
    destruct (Z.le_gt_cases 0 (e + j)) as [Hej|Hej].
    + rewrite (Z.max_r 0 (e + j)), (Z.max_l 0 (- (e + j))) by lia.
      assert (E : 2 ^ j = 2 ^ (e + j) * 2 ^ (- e))
        by (rewrite <- Z.pow_add_r by lia; f_equal; lia).
      rewrite E. change (2 ^ 0) with 1.
      pose proof (Z.pow_pos_nonneg 2 (- e) ltac:(lia) ltac:(lia)).
      clear E. generalize dependent (2 ^ (- e)). generalize (2 ^ (e + j)).
      intros A B HB. split; intros; nia.
    + rewrite (Z.max_l 0 (e + j)), (Z.max_r 0 (- (e + j))) by lia.
      assert (E : 2 ^ (- e) = 2 ^ (- (e + j)) * 2 ^ j)
        by (rewrite <- Z.pow_add_r by lia; f_equal; lia).
      rewrite E. change (2 ^ 0) with 1.
      pose proof (Z.pow_pos_nonneg 2 j ltac:(lia) ltac:(lia)).
      clear E. generalize dependent (2 ^ j). generalize (2 ^ (- (e + j))).
      intros A B HB. split; intros; nia.
Qed.

Lemma ratio_above_log2_gap (p q : Z) :
  0 < p -> 0 < q -> ratio_ge_pow2 p q (Z.log2 p - Z.log2 q - 1).
Proof.
  intros Hp Hq. unfold ratio_ge_pow2, scaled_den, scaled_num.
  destruct (Z.log2_spec p Hp) as [Hpl _]. destruct (Z.log2_spec q Hq) as [_ Hqu].
  pose proof (Z.log2_nonneg p). pose proof (Z.log2_nonneg q).
  set (a := Z.log2 p) in *. set (b := Z.log2 q) in *.
  destruct (Z.le_gt_cases 0 (a - b - 1)) as [Hk|Hk].
  - rewrite (Z.max_r 0 (a - b - 1)), (Z.max_l 0 (- (a - b - 1))) by lia.
    change (2 ^ 0) with 1.
    assert (E : 2 ^ a = 2 ^ Z.succ b * 2 ^ (a - b - 1))
      by (rewrite <- Z.pow_add_r by lia; f_equal; lia).
    pose proof (Z.pow_pos_nonneg 2 (a - b - 1) ltac:(lia) ltac:(lia)).
    nia.
  - rewrite (Z.max_l 0 (a - b - 1)), (Z.max_r 0 (- (a - b - 1))) by lia.
    change (2 ^ 0) with 1.
    assert (E : 2 ^ Z.succ b = 2 ^ a * 2 ^ (- (a - b - 1)))
      by (rewrite <- Z.pow_add_r by lia; f_equal; lia).
    pose proof (Z.pow_pos_nonneg 2 (- (a - b - 1)) ltac:(lia) ltac:(lia)).
    nia.
Qed.

Lemma ratio_below_log2_gap (p q : Z) :
  0 < p -> 0 < q -> ~ ratio_ge_pow2 p q (Z.log2 p - Z.log2 q + 1).
Proof.
  intros Hp Hq. unfold ratio_ge_pow2, scaled_den, scaled_num.
  destruct (Z.log2_spec p Hp) as [_ Hpu]. destruct (Z.log2_spec q Hq) as [Hql _].
  pose proof (Z.log2_nonneg p). pose proof (Z.log2_nonneg q).
  set (a := Z.log2 p) in *. set (b := Z.log2 q) in *.
  destruct (Z.le_gt_cases 0 (a - b + 1)) as [Hk|Hk].
  - rewrite (Z.max_r 0 (a - b + 1)), (Z.max_l 0 (- (a - b + 1))) by lia.
    change (2 ^ 0) with 1.
    assert (E : 2 ^ Z.succ a = 2 ^ b * 2 ^ (a - b + 1))
      by (rewrite <- Z.pow_add_r by lia; f_equal; lia).
    pose proof (Z.pow_pos_nonneg 2 (a - b + 1) ltac:(lia) ltac:(lia)).
    nia.
  - rewrite (Z.max_l 0 (a - b + 1)), (Z.max_r 0 (- (a - b + 1))) by lia.
    change (2 ^ 0) with 1.
    assert (E : 2 ^ b = 2 ^ Z.succ a * 2 ^ (- (a - b + 1)))
      by (rewrite <- Z.pow_add_r by lia; f_equal; lia).
    pose proof (Z.pow_pos_nonneg 2 (- (a - b + 1)) ltac:(lia) ltac:(lia)).
    nia.
Qed.

(** [ilog2_ratio p q] is the binary exponent of [p / q]. *)
Lemma ilog2_ratio_spec (p q : Z) :
  0 < p -> 0 < q ->
  ratio_ge_pow2 p q (ilog2_ratio p q)
  /\ ~ ratio_ge_pow2 p q (ilog2_ratio p q + 1).
Proof.
  intros Hp Hq. unfold ilog2_ratio.
  destruct (Z.leb_spec (scaled_den q (Z.log2 p - Z.log2 q))
                       (scaled_num p (Z.log2 p - Z.log2 q))) as [Hge|Hlt].
  - split; [exact Hge|]. now apply ratio_below_log2_gap.
  - split; [now apply ratio_above_log2_gap|].
    replace (Z.log2 p - Z.log2 q - 1 + 1) with (Z.log2 p - Z.log2 q) by lia.
    unfold ratio_ge_pow2. lia.
Qed.

(** The exponent is determined by the two inequalities. *)
Lemma ratio_ge_pow2_mono (p q k j : Z) :
  0 < q -> 0 <= p -> 0 <= j -> ratio_ge_pow2 p q (k + j) -> ratio_ge_pow2 p q k.
Proof.
  intros Hq Hp Hj H. apply (ratio_ge_pow2_shift p q k j Hq Hj) in H.
  unfold ratio_ge_pow2.
  pose proof (Z.pow_pos_nonneg 2 j ltac:(lia) ltac:(lia)).
  assert (0 < scaled_den q k)
    by (unfold scaled_den; pose proof (pow2_pos k); nia).
  nia.
Qed.

Lemma ilog2_ratio_unique (p q g : Z) :
  0 < p -> 0 < q ->
  ratio_ge_pow2 p q g -> ~ ratio_ge_pow2 p q (g + 1) ->
  ilog2_ratio p q = g.
Proof.
  intros Hp Hq Hge Hlt.
  destruct (ilog2_ratio_spec p q Hp Hq) as [Hge' Hlt'].
  set (g' := ilog2_ratio p q) in *.
  destruct (Z.lt_trichotomy g g') as [H|[H|H]]; [|congruence|].
  - exfalso. apply Hlt.
    apply (ratio_ge_pow2_mono p q (g + 1) (g' - (g + 1))); try lia.
    now replace (g + 1 + (g' - (g + 1))) with g' by lia.
  - exfalso. apply Hlt'.
    apply (ratio_ge_pow2_mono p q (g' + 1) (g - (g' + 1))); try lia.
    now replace (g' + 1 + (g - (g' + 1))) with g by lia.
Qed.

(** ** Shape of the converted numbers *)

Lemma scaled_den_pos (q e : Z) : 0 < q -> 0 < scaled_den q e.
Proof. intros Hq. unfold scaled_den. pose proof (pow2_pos e). nia. Qed.

Lemma scaled_num_nonneg (p e : Z) : 0 <= p -> 0 <= scaled_num p e.
Proof. intros Hp. unfold scaled_num. pose proof (pow2_pos (- e)). nia. Qed.

Lemma float_of_ratio_canonical (p q m e : Z) :
  0 < q -> float_of_ratio p q = Finite m e ->
  (2 ^ 52 <= m < 2 ^ 53 /\ -1074 <= e <= 971)
  \/ (0 <= m < 2 ^ 52 /\ e = -1074).
Proof.
  intros Hq. unfold float_of_ratio.
  destruct (Z.leb_spec p 0) as [Hp|Hp].
  { intros H. injection H as <- <-. right. split; [split; [lia|reflexivity]|reflexivity]. }
  destruct (ilog2_ratio_spec p q Hp Hq) as [Hge Hlt].
  set (g := ilog2_ratio p q) in *.
  set (e0 := Z.max (g - 52) (-1074)).
  pose proof (scaled_den_pos q e0 Hq) as Hden.
  pose proof (scaled_num_nonneg p e0 ltac:(lia)) as Hnum.
  assert (Hup : scaled_num p e0 < 2 ^ 53 * scaled_den q e0).
  { apply Z.nle_gt. intros H. apply Hlt.
    apply (ratio_ge_pow2_shift p q e0 53 Hq ltac:(lia)) in H.
    apply (ratio_ge_pow2_mono p q (g + 1) (e0 + 53 - (g + 1))); try lia.
    now replace (g + 1 + (e0 + 53 - (g + 1))) with (e0 + 53) by lia. }
  assert (Hlow : e0 = g - 52 -> 2 ^ 52 * scaled_den q e0 <= scaled_num p e0).
  { intros E. apply (ratio_ge_pow2_shift p q e0 52 Hq ltac:(lia)).
    now replace (e0 + 52) with g by lia. }
  assert (Hsub : e0 <> g - 52 -> scaled_num p e0 < 2 ^ 52 * scaled_den q e0).
  { intros E. apply Z.nle_gt. intros H. apply Hlt.
    apply (ratio_ge_pow2_shift p q e0 52 Hq ltac:(lia)) in H.
    apply (ratio_ge_pow2_mono p q (g + 1) (e0 + 52 - (g + 1))); try lia.
    now replace (g + 1 + (e0 + 52 - (g + 1))) with (e0 + 52) by lia. }
  set (m0 := round_half_even (scaled_num p e0) (scaled_den q e0)).
  assert (Hm0 : 0 <= m0 <= 2 ^ 53)
    by (apply round_half_even_between; lia).
  assert (Hm0l : e0 = g - 52 -> 2 ^ 52 <= m0).
  { intros E. specialize (Hlow E).
    apply (round_half_even_between _ _ (2 ^ 52) (2 ^ 53)); lia. }
  assert (Hm0s : e0 <> g - 52 -> m0 <= 2 ^ 52).
  { intros E. specialize (Hsub E).
    apply (round_half_even_between _ _ 0 (2 ^ 52)); lia. }
  change (2 ^ 52) with 4503599627370496 in *.
  change (2 ^ 53) with 9007199254740992 in *.
  destruct (Z.eqb_spec m0 9007199254740992) as [E53|N53].
  - destruct (Z.ltb_spec 971 (e0 + 1)); [discriminate|].
    intros H'. injection H' as <- <-. left. lia.
  - destruct (Z.ltb_spec 971 e0); [discriminate|].
    intros H'. injection H' as <- <-.
    destruct (Z.eq_dec e0 (g - 52)) as [E|E].
    + left. specialize (Hm0l E). lia.
    + specialize (Hm0s E).
      destruct (Z.eq_dec m0 4503599627370496); [left|right]; lia.
Qed.

(** A converted number strictly between 1 and 10 has a full significand and
    one of four exponents. *)
Lemma between_1_and_10 (m e : Z) :
  (2 ^ 52 <= m < 2 ^ 53 /\ -1074 <= e <= 971)
  \/ (0 <= m < 2 ^ 52 /\ e = -1074) ->
  py_ltb (PyInt 1) (PyFloat (Finite m e)) = true ->
  py_ltb (PyFloat (Finite m e)) (PyInt 10) = true ->
  2 ^ 52 <= m < 2 ^ 53
  /\ (e = -52 \/ e = -51 \/ e = -50 \/ e = -49)
  /\ 2 ^ (- e) < m < 10 * 2 ^ (- e).
Proof.
  intros Hcan Hlo Hhi. cbn [py_ltb] in Hlo, Hhi.
  rewrite cmp_int_float in Hlo. rewrite cmp_float_int in Hhi.
  destruct (Z.compare_spec (1 * 2 ^ Z.max 0 (- e)) (m * 2 ^ Z.max 0 e));
    try discriminate.
  destruct (Z.compare_spec (m * 2 ^ Z.max 0 e) (10 * 2 ^ Z.max 0 (- e)));
    try discriminate.
  clear Hlo Hhi.
  destruct Hcan as [[Hm He]|[Hm ->]].
  - destruct (Z.le_gt_cases 0 e) as [Hpos|Hneg].
    + exfalso. rewrite (Z.max_r 0 e), (Z.max_l 0 (- e)) in * by lia.
      change (2 ^ 0) with 1 in *.
      pose proof (Z.pow_pos_nonneg 2 e ltac:(lia) Hpos).
      change (2 ^ 52) with 4503599627370496 in *. nia.
    + rewrite (Z.max_l 0 e), (Z.max_r 0 (- e)) in * by lia.
      change (2 ^ 0) with 1 in *.
      assert (- e < 53).
      { apply (Z.pow_lt_mono_r_iff 2); lia. }
      assert (48 < - e).
      { apply (Z.pow_lt_mono_r_iff 2); lia. }
      split; [assumption|]. split; lia.
  - exfalso. change (Z.max 0 (- -1074)) with 1074 in *.
    change (Z.max 0 (-1074)) with 0 in *. change (2 ^ 0) with 1 in *.
    assert (2 ^ 52 < 2 ^ 1074) by (apply Z.pow_lt_mono_r; lia).
    lia.
Qed.

(** ** The shortest digits of a number between 1 and 10 *)

Lemma float_eqb_eq (x y : float) : float_eqb x y = true <-> x = y.
Proof.
  destruct x as [m1 e1|], y as [m2 e2|]; cbn; try (split; congruence).
  rewrite andb_true_iff, !Z.eqb_eq. split; [intros [-> ->]; reflexivity|].
  intros H. injection H as -> ->. now split.
Qed.

Lemma find_decpt_first (fuel : nat) (m e d0 : Z) :
  below_pow10 m e d0 = true ->
  forall d,
    d <= d0 -> d0 - d < Z.of_nat fuel ->
    (forall d', d <= d' < d0 -> below_pow10 m e d' = false) ->
    find_decpt fuel d m e = d0.
Proof.
  intros Hd0. induction fuel as [|fuel IH]; intros d Hle Hfuel Hbefore; [lia|].
  cbn [find_decpt].
  destruct (Z.eq_dec d d0) as [->|Hne]; [now rewrite Hd0|].
  rewrite (Hbefore d) by lia.
  apply IH; try lia. intros d' Hd'. apply Hbefore. lia.
Qed.

(** Evaluate the operations of a goal whose arguments are numerals. *)
Ltac is_numeral a :=
  lazymatch a with
  | Z0 => idtac
  | Z.pos _ => idtac
  | Z.neg _ => idtac
  end.

Ltac eval_closed_term t :=
  let v := eval vm_compute in t in change t with v in *.

Ltac eval_closed :=
  repeat match goal with
    | |- context [Z.opp ?a] => is_numeral a; eval_closed_term (Z.opp a)
    | H : context [Z.opp ?a] |- _ => is_numeral a; eval_closed_term (Z.opp a)
    | |- context [Z.add ?a ?b] =>
        is_numeral a; is_numeral b; eval_closed_term (Z.add a b)
    | H : context [Z.add ?a ?b] |- _ =>
        is_numeral a; is_numeral b; eval_closed_term (Z.add a b)
    | |- context [Z.sub ?a ?b] =>
        is_numeral a; is_numeral b; eval_closed_term (Z.sub a b)
    | H : context [Z.sub ?a ?b] |- _ =>
        is_numeral a; is_numeral b; eval_closed_term (Z.sub a b)
    | |- context [Z.max ?a ?b] =>
        is_numeral a; is_numeral b; eval_closed_term (Z.max a b)
    | H : context [Z.max ?a ?b] |- _ =>
        is_numeral a; is_numeral b; eval_closed_term (Z.max a b)
    | |- context [Z.pow ?a ?b] =>
        is_numeral a; is_numeral b; eval_closed_term (Z.pow a b)
    | H : context [Z.pow ?a ?b] |- _ =>
        is_numeral a; is_numeral b; eval_closed_term (Z.pow a b)
    end.

Ltac four_exponents H :=
  destruct H as (Hm & He & Hx);
  destruct He as [He | [He | [He | He]]]; subst; eval_closed.

Lemma decpt_is_1 (m e : Z) : in_1_10 m e -> decpt_of m e = 1.
Proof.
  intros H. unfold decpt_of. apply find_decpt_first; try lia.
  - unfold below_pow10. apply Z.ltb_lt.
    four_exponents H; lia.
  - intros d' Hd'. unfold below_pow10. apply Z.ltb_ge.
    rewrite (Z.max_l 0 d'), (Z.max_r 0 (- d')) by lia.
    pose proof (Z.pow_pos_nonneg 10 (- d') ltac:(lia) ltac:(lia)).
    four_exponents H; nia.
Qed.

Lemma lo_digits_eq (m e n : Z) :
  in_1_10 m e -> 1 <= n ->
  lo_digits m e 1 n = (m * 10 ^ (n - 1)) / 2 ^ (- e).
Proof.
  intros H Hn. unfold lo_digits.
  rewrite (Z.max_r 0 (n - 1)), (Z.max_l 0 (1 - n)) by lia.
  four_exponents H; now rewrite !Z.mul_1_r.
Qed.

Lemma lo_digits_bounds (m e n : Z) :
  in_1_10 m e -> 1 <= n ->
  10 ^ (n - 1) <= lo_digits m e 1 n < 10 ^ n
  /\ 2 ^ (- e) * lo_digits m e 1 n <= m * 10 ^ (n - 1)
     < 2 ^ (- e) * (lo_digits m e 1 n + 1).
Proof.
  intros H Hn. rewrite (lo_digits_eq m e n H Hn). destruct H as (Hm & He & Hx).
  assert (Hpow : 10 ^ n = 10 * 10 ^ (n - 1)).
  { replace n with (1 + (n - 1)) at 1 by lia. now rewrite Z.pow_add_r by lia. }
  pose proof (Z.pow_pos_nonneg 10 (n - 1) ltac:(lia) ltac:(lia)) as Hp.
  pose proof (Z.pow_pos_nonneg 2 (- e) ltac:(lia) ltac:(lia)) as H2.
  pose proof (Z.div_mod (m * 10 ^ (n - 1)) (2 ^ (- e)) ltac:(lia)) as Hdm.
  pose proof (Z.mod_pos_bound (m * 10 ^ (n - 1)) (2 ^ (- e)) H2) as Hr.
  split; [split|nia].
  - apply Z.div_le_lower_bound; [lia|nia].
  - apply Z.div_lt_upper_bound; [lia|]. rewrite Hpow. nia.
Qed.

Lemma reads_back_eq (m e d n : Z) :
  1 <= n ->
  reads_back m e d (1 - n) = true <->
  float_of_ratio d (10 ^ (n - 1)) = Finite m e.
Proof.
  intros Hn. unfold reads_back. rewrite float_eqb_eq.
  rewrite (Z.max_l 0 (1 - n)), (Z.max_r 0 (- (1 - n))) by lia.
  change (10 ^ 0) with 1. rewrite Z.mul_1_r.
  now replace (- (1 - n)) with (n - 1) by lia.
Qed.

Lemma ten_reads_back_as_ten (n : Z) :
  1 <= n <= 17 ->
  float_of_ratio (10 ^ n) (10 ^ (n - 1)) = Finite 5629499534213120 (-49).
Proof.
  intros Hn.
  assert (H : n = 1 \/ n = 2 \/ n = 3 \/ n = 4 \/ n = 5 \/ n = 6 \/ n = 7
              \/ n = 8 \/ n = 9 \/ n = 10 \/ n = 11 \/ n = 12 \/ n = 13
              \/ n = 14 \/ n = 15 \/ n = 16 \/ n = 17) by lia.
  repeat (destruct H as [->|H]; [vm_compute; reflexivity|]).
  subst n. vm_compute. reflexivity.
Qed.

Lemma with_carry_in_range (m e d n : Z) :
  in_1_10 m e -> 1 <= n <= 17 -> d <= 10 ^ n ->
  float_of_ratio d (10 ^ (n - 1)) = Finite m e ->
  with_carry d 1 n = (d, n, 1) /\ d < 10 ^ n.
Proof.
  intros (Hm & He & Hx) Hn Hle Hback. unfold with_carry.
  destruct (Z.eqb_spec d (10 ^ n)) as [->|Hne]; [|split; [reflexivity|lia]].
  exfalso. rewrite (ten_reads_back_as_ten n Hn) in Hback.
  injection Hback as <- <-. cbn in Hx. lia.
Qed.

Lemma nearest_digits_cases (m e p n : Z) :
  let num := m * 2 ^ Z.max 0 e * 10 ^ Z.max 0 (n - p) in
  let den := 2 ^ Z.max 0 (- e) * 10 ^ Z.max 0 (p - n) in
  let lo := lo_digits m e p n in
  0 < den ->
  (nearest_digits m e p n = (lo, n, p) /\ 2 * (num - lo * den) <= den)
  \/ (nearest_digits m e p n = with_carry (lo + 1) p n
      /\ 2 * ((lo + 1) * den - num) <= den).
Proof.
  intros num den lo Hden. unfold nearest_digits, near_lo.
  fold den. fold num. fold lo.
  assert (Hlo : lo = num / den) by reflexivity.
  pose proof (Z.div_mod num den ltac:(lia)) as Hdm.
  pose proof (Z.mod_pos_bound num den Hden) as Hr.
  rewrite <- Hlo in Hdm.
  destruct (Z.ltb_spec (2 * (num mod den)) den) as [H1|H1]; cbn [orb].
  - left. split; [reflexivity|nia].
  - destruct (Z.eqb_spec (2 * (num mod den)) den) as [H2|H2]; cbn [andb].
    + destruct (Z.even lo); [left|right]; (split; [reflexivity|nia]).
    + right. split; [reflexivity|nia].
Qed.

(** Seventeen digits always read back. *)
Lemma seventeen_digits_read_back (m e d : Z) :
  in_1_10 m e ->
  - 2 ^ (- e) <= 2 * (d * 2 ^ (- e) - m * 10 ^ 16) <= 2 ^ (- e) ->
  float_of_ratio d (10 ^ 16) = Finite m e.
Proof.
  intros H Hd.
  assert (Hg : ilog2_ratio d (10 ^ 16) = 52 + e).
  { apply ilog2_ratio_unique; try reflexivity.
    - four_exponents H; lia.
    - unfold ratio_ge_pow2, scaled_den, scaled_num. four_exponents H; lia.
    - unfold ratio_ge_pow2, scaled_den, scaled_num. four_exponents H; lia. }
  unfold float_of_ratio. rewrite Hg.
  destruct (Z.leb_spec d 0) as [Hd0|Hd0];
    [exfalso; four_exponents H; lia|].
  replace (Z.max (52 + e - 52) (-1074)) with e
    by (destruct H as (_ & He & _); lia).
  assert (Hr : round_half_even (scaled_num d e) (scaled_den (10 ^ 16) e) = m).
  { apply round_half_even_unique;
      unfold scaled_num, scaled_den; four_exponents H; lia. }
  rewrite Hr.
  destruct H as (Hm & He & _).
  destruct (Z.eqb_spec m (2 ^ 53)) as [E|_]; [lia|].
  destruct (Z.ltb_spec 971 e); [lia|reflexivity].
Qed.

Lemma nearest_seventeen (m e : Z) :
  in_1_10 m e ->
  exists d, nearest_digits m e 1 17 = (d, 17, 1)
            /\ 10 ^ 16 <= d < 10 ^ 17
            /\ float_of_ratio d (10 ^ 16) = Finite m e.
Proof.
  intros H.
  destruct (lo_digits_bounds m e 17 H ltac:(lia)) as [Hlo Hfloor].
  assert (Hback : forall d,
            - 2 ^ (- e) <= 2 * (d * 2 ^ (- e) - m * 10 ^ 16) <= 2 ^ (- e) ->
            float_of_ratio d (10 ^ (17 - 1)) = Finite m e)
    by (intros d Hd; now apply seventeen_digits_read_back).
  destruct (nearest_digits_cases m e 1 17) as [[-> Hnear]|[-> Hnear]].
  - four_exponents H; lia.
  - exists (lo_digits m e 1 17). split; [reflexivity|].
    split; [exact Hlo|]. apply Hback.
    four_exponents H; lia.
  - assert (Hd : float_of_ratio (lo_digits m e 1 17 + 1) (10 ^ (17 - 1)) = Finite m e).
    { apply Hback. four_exponents H; lia. }
    destruct (with_carry_in_range m e (lo_digits m e 1 17 + 1) 17 H
                ltac:(lia) ltac:(lia) Hd) as [-> Hlt].
    exists (lo_digits m e 1 17 + 1). split; [reflexivity|].
    split; [lia|exact Hd].
Qed.

(** The digits printed for a number between 1 and 10: at most seventeen,
    the decimal point after the first, and they read back as the number. *)
Lemma shortest_digits_in_range (m e : Z) (fuel : nat) (n : Z) :
  in_1_10 m e -> 1 <= n -> n + Z.of_nat fuel = 17 ->
  exists d k, shortest_digits fuel n m e 1 = (d, k, 1)
              /\ 1 <= k <= 17
              /\ 10 ^ (k - 1) <= d < 10 ^ k
              /\ float_of_ratio d (10 ^ (k - 1)) = Finite m e.
Proof.
  intros H. revert n. induction fuel as [|fuel IH]; intros n Hn Hfuel.
  - replace n with 17 by lia. cbn [shortest_digits].
    destruct (nearest_seventeen m e H) as (d & -> & Hd & Hback).
    exists d, 17. repeat split; try lia. exact Hback.
  - cbn [shortest_digits]. unfold digits_at.
    destruct (lo_digits_bounds m e n H Hn) as [Hlo _].
    destruct (reads_back m e (lo_digits m e 1 n) (1 - n)) eqn:Hok_lo;
      destruct (reads_back m e (lo_digits m e 1 n + 1) (1 - n)) eqn:Hok_hi;
      cbn [andb];
      try (apply reads_back_eq in Hok_lo; [|lia]);
      try (apply reads_back_eq in Hok_hi; [|lia]).
    + destruct (with_carry_in_range m e (lo_digits m e 1 n + 1) n H
                  ltac:(lia) ltac:(lia) Hok_hi) as [Hcarry Hlt].
      unfold nearest_digits. rewrite Hcarry.
      destruct (near_lo m e 1 n).
      * exists (lo_digits m e 1 n), n. repeat split; try lia. exact Hok_lo.
      * exists (lo_digits m e 1 n + 1), n. repeat split; try lia. exact Hok_hi.
    + exists (lo_digits m e 1 n), n. repeat split; try lia. exact Hok_lo.
    + destruct (with_carry_in_range m e (lo_digits m e 1 n + 1) n H
                  ltac:(lia) ltac:(lia) Hok_hi) as [-> Hlt].
      exists (lo_digits m e 1 n + 1), n. repeat split; try lia. exact Hok_hi.
    + apply IH; lia.
Qed.

(** ** Printing and reading digits *)

Lemma digit_char_spec (r : Z) :
  0 <= r <= 9 ->
  PyStr.isdigit (digit_char r) = true /\ digit_val (digit_char r) = r.
Proof.
  intros Hr.
  assert (H : r = 0 \/ r = 1 \/ r = 2 \/ r = 3 \/ r = 4 \/ r = 5 \/ r = 6
              \/ r = 7 \/ r = 8 \/ r = 9) by lia.
  repeat (destruct H as [->|H]; [now split|]). subst r. now split.
Qed.

Lemma all_digits_app (a b : string) :
  all_digits (a ++ b) = all_digits a && all_digits b.
Proof.
  unfold all_digits. induction a as [|c a IH]; cbn; [reflexivity|].
  now rewrite IH, andb_assoc.
Qed.

Lemma digits_value_from_app (a b : string) (acc : Z) :
  digits_value_from acc (a ++ b) = digits_value_from (digits_value_from acc a) b.
Proof.
  revert acc. induction a as [|c a IH]; intros acc; cbn; [reflexivity|apply IH].
Qed.

Lemma digits_of_spec (n : nat) (d : Z) :
  0 <= d ->
  all_digits (digits_of n d) = true
  /\ String.length (digits_of n d) = n
  /\ digits_value (digits_of n d) = d mod 10 ^ Z.of_nat n.
Proof.
  revert d. induction n as [|n IH]; intros d Hd.
  - cbn. repeat split. now rewrite Z.mod_1_r.
  - cbn [digits_of].
    assert (Hq : 0 <= d / 10) by (apply Z.div_pos; lia).
    destruct (IH (d / 10) Hq) as (Hall & Hlen & Hval).
    pose proof (Z.mod_pos_bound d 10 ltac:(lia)) as Hr.
    destruct (digit_char_spec (d mod 10) ltac:(lia)) as [Hdig Hdv].
    split; [|split].
    + rewrite all_digits_app, Hall. cbn. now rewrite Hdig.
    + rewrite length_append, Hlen. cbn. lia.
    + unfold digits_value in *. rewrite digits_value_from_app, Hval.
      cbn [digits_value_from].
      rewrite Hdv. rewrite Nat2Z.inj_succ, Z.pow_succ_r by lia.
      pose proof (Z.pow_pos_nonneg 10 (Z.of_nat n) ltac:(lia) ltac:(lia)) as Hp.
      rewrite Z.rem_mul_r by lia. lia.
Qed.

Lemma substring_none (s : string) : substring 0 0 s = "".
Proof. now destruct s. Qed.

Lemma substring_all (s : string) : substring 0 (String.length s) s = s.
Proof. induction s as [|c s IH]; cbn; [reflexivity|now rewrite IH]. Qed.

(** What [repr] prints for a number between 1 and 10: one digit, the
    point, and digits that read back as the number. *)
Lemma repr_in_range (m e : Z) :
  in_1_10 m e ->
  exists c rest,
    repr_float (Finite m e) = String c ("." ++ rest)
    /\ PyStr.isdigit c = true
    /\ all_digits rest = true
    /\ float_of_ratio (digits_value (String c rest))
                      (10 ^ Z.of_nat (String.length rest)) = Finite m e.
Proof.
  intros H.
  destruct (shortest_digits_in_range m e 16 1 H ltac:(lia) ltac:(lia))
    as (d & k & Hs & Hk & Hd & Hback).
  unfold repr_float.
  destruct (Z.leb_spec m 0) as [Hm0|_];
    [destruct H as (Hm & _); eval_closed; lia|].
  rewrite (decpt_is_1 m e H), Hs.
  change (1 <=? -4) with false. change (16 <? 1) with false.
  change (1 <=? 0) with false. cbn [orb].
  destruct (Z.leb_spec k 1) as [Hk1|Hk2].
  - assert (k = 1) by lia. subst k. clear Hs.
    change (10 ^ (1 - 1)) with 1 in *. change (10 ^ 1) with 10 in Hd.
    assert (Hd9 : d = 1 \/ d = 2 \/ d = 3 \/ d = 4 \/ d = 5 \/ d = 6
                  \/ d = 7 \/ d = 8 \/ d = 9) by lia.
    clear H Hd Hk Hk1.
    exists (digit_char d), "0".
    repeat (destruct Hd9 as [->|Hd9];
            [vm_compute in Hback; injection Hback as <- <-;
             repeat split; vm_compute; reflexivity|]).
    subst d. vm_compute in Hback. injection Hback as <- <-.
    repeat split; vm_compute; reflexivity.
  - destruct (digits_of_spec (Z.to_nat k) d ltac:(lia)) as (Hall & Hlen & Hval).
    rewrite Z2Nat.id, Z.mod_small in Hval by lia.
    destruct (digits_of (Z.to_nat k) d) as [|c rest] eqn:Hds.
    { cbn in Hlen. lia. }
    cbn [String.length] in Hlen.
    assert (Hrest : String.length rest = Z.to_nat (k - 1)) by lia.
    exists c, rest.
    apply andb_true_iff in Hall as [Hc Hr].
    split; [|split; [exact Hc|split; [exact Hr|]]].
    + change (Z.to_nat 1) with 1%nat. cbn [substring].
      now rewrite substring_none, <- Hrest, substring_all.
    + rewrite Hval, Hrest, Z2Nat.id by lia. exact Hback.
Qed.

Lemma py_float_is_ratio (g : string) (x : float) :
  py_float g = Ok x -> exists p q, 0 < q /\ x = float_of_ratio p q.
Proof.
  unfold py_float. destruct (span_digits g) as [ip r].
  destruct r as [|c r].
  - destruct (PyStr.truthy ip); [|discriminate].
    intros H. injection H as <-. exists (digits_value ip), 1. now split.
  - destruct (Ascii.eqb_spec c ".") as [->|Hc].
    + destruct (span_digits r) as [fp r'']. destruct r''; [|discriminate].
      destruct (PyStr.truthy ip || PyStr.truthy fp); [|discriminate].
      intros H. injection H as <-. eexists; eexists. split; [|reflexivity].
      apply Z.pow_pos_nonneg; lia.
    + destruct c as [[] [] [] [] [] [] [] []]; try discriminate.
      now destruct Hc.
Qed.

Lemma parse_printed_decimal (c : ascii) (rest : string) :
  PyStr.isdigit c = true -> all_digits rest = true ->
  _parse_score (String c ("." ++ rest))
  = Ok (clamp 1 10 (float_of_ratio (digits_value (String c rest))
                                   (10 ^ Z.of_nat (String.length rest)))).
Proof.
  intros Hc Hrest.
  assert (Hip : all_digits (String c "") = true) by (cbn; now rewrite Hc).
  destruct (parse_first_number "" (String c "" ++ "." ++ rest) ""
              (float_of_ratio (digits_value (String c "" ++ rest))
                              (10 ^ Z.of_nat (String.length rest)))) as [Hp _].
  - reflexivity.
  - cbn. exact Hc.
  - rewrite append_nil_r.
    rewrite <- (append_nil_r rest) at 1.
    now apply (match_decimal (String c "") rest "").
  - apply py_float_decimal; [assumption|assumption|discriminate].
  - cbn [append] in Hp. rewrite append_nil_r in Hp. exact Hp.
Qed.

(** C6, as the code has it: [_parse_score], whose bounds are 1 and 10, is
    idempotent under re-parsing its own printed result: for every text it
    returns a number, and applying it to the [str] of that number returns
    the same number. *)
Theorem parse_score_idempotent :
  (forall t, exists v,
      _parse_score t = Ok v /\ _parse_score (py_str v) = Ok v)
  /\ py_str (PyFloat (Finite (17 * 2 ^ 48) (-49))) = "8.5"
  /\ _parse_score "8.5" = Ok (PyFloat (Finite (17 * 2 ^ 48) (-49)))
  /\ py_str (PyInt 10) = "10"
  /\ _parse_score "10" = Ok (PyInt 10).
Proof.
  split; [|repeat split; vm_compute; reflexivity].
  intros t. unfold _parse_score at 1.
  destruct (re_search_cases t) as [[-> _]|(x & g & -> & Hx)].
  { eexists. split; [reflexivity|]. vm_compute. reflexivity. }
  rewrite Hx. eexists. split; [reflexivity|].
  destruct (py_float_is_ratio g x Hx) as (p & q & Hq & ->).
  fold (clamp 1 10 (float_of_ratio p q)).
  destruct (float_of_ratio p q) as [m e|] eqn:Hf;
    [|vm_compute; reflexivity].
  pose proof (float_of_ratio_canonical p q m e Hq Hf) as Hcan.
  unfold clamp, py_max.
  destruct (py_ltb (PyInt 1) (PyFloat (Finite m e))) eqn:Hlo;
    [|vm_compute; reflexivity].
  unfold py_min.
  destruct (py_ltb (PyFloat (Finite m e)) (PyInt 10)) eqn:Hhi;
    [|vm_compute; reflexivity].
  assert (H : in_1_10 m e) by (now apply between_1_and_10).
  destruct (repr_in_range m e H) as (c & rest & Hrepr & Hc & Hrest & Hback).
  cbn [py_str]. rewrite Hrepr, (parse_printed_decimal c rest Hc Hrest), Hback.
  unfold clamp, py_max, py_min. now rewrite Hlo, Hhi.
Qed.

(** C6, as stated for any bounds, fails: with the bounds 0 and 10 of
    [_parse_rating] a rating below 0.0001 is printed with an exponent, of
    which only the leading digits are read again. *)
Lemma parse_rating_small_not_reparsed :
  exists v, _parse_rating "0.00001" = Ok v
            /\ py_str v = "1e-05"
            /\ _parse_rating (py_str v) = Ok (PyFloat (Finite (2 ^ 52) (-52)))
            /\ _parse_rating (py_str v) <> Ok v.
Proof.
  eexists. split; [vm_compute; reflexivity|].
  split; [vm_compute; reflexivity|].
  split; [vm_compute; reflexivity|].
  vm_compute. discriminate.
Qed.

(** * Further properties of the pipelines *)

Import ResumeAnalyzer.





(** X3: every entry of [section_analyses] in a result of [forward] is a
    dictionary with exactly the keys [analysis] and [score], and the score
    lies between 1 and 10. *)
Theorem resume_forward_scores_in_range
    (o : ResumeAnalyzer.Oracle) (resume_text : string)
    (tr tr' : list (event ResumeAnalyzer.call)) (d sa : dict) :
  ResumeAnalyzer.forward o resume_text tr = (Ok d, tr') ->
  dict_get d "section_analyses" = Some (VDict sa) ->
  forall name v, In (name, v) sa -> scored_evaluation v.
Proof.
  intros Hrun Hsa name v Hin. rewrite forward_stages in Hrun.
  destruct (section_identifier o tr resume_text) as [sections|e];
    [|unfold failed in Hrun; injection Hrun as <- _; discriminate].
  cbv zeta in Hrun.
  destruct (analyze_sections o resume_text _ [] _) as [[sa'|e] tr2] eqn:Hloop;
    [|unfold failed in Hrun; injection Hrun as <- _; discriminate].
  destruct (overall_assessor o tr2 resume_text) as [a|e];
    [|unfold failed in Hrun; injection Hrun as <- _; discriminate].
  injection Hrun as <- _. cbn in Hsa. injection Hsa as ->.
  apply analyze_sections_scored in Hloop; [|constructor].
  rewrite Forall_forall in Hloop. apply Hloop.
  apply in_map_iff. now exists (name, v).
Qed.

Lemma resume_forward_scores_in_range_witness :
  scored_evaluation
    (VDict [("analysis", VStr "fine");
            ("score", VNum (PyFloat (Finite 4503599627370496 (-49))))]).
Proof.
  apply (resume_forward_scores_in_range sample_oracle "doc" [] sample_trace
           sample_result sample_analyses) with (name := "a"); [| |right; left].
  - vm_compute. reflexivity.
  - reflexivity.
  - reflexivity.
Defined.



(** ** The movie reviewer *)

Lemma case_facts (c : ascii) :
  PyStr.to_lower (PyStr.to_upper c) = PyStr.to_lower c
  /\ PyStr.to_upper (PyStr.to_upper c) = PyStr.to_upper c
  /\ PyStr.isspace (PyStr.to_lower c) = PyStr.isspace c
  /\ PyStr.isspace (PyStr.to_upper c) = PyStr.isspace c
  /\ (PyStr.isupper (PyStr.to_lower c) || PyStr.islower (PyStr.to_lower c)
      = PyStr.isupper c || PyStr.islower c)
  /\ (PyStr.isupper (PyStr.to_upper c) || PyStr.islower (PyStr.to_upper c)
      = PyStr.isupper c || PyStr.islower c).
Proof.
  destruct c as [[] [] [] [] [] [] [] []]; repeat split; reflexivity.
Qed.

Lemma title_from_lower (b : bool) (s : string) :
  PyStr.lower (PyStr.title_from b s) = PyStr.lower s.
Proof.
  revert b. induction s as [|c s IH]; intros b; cbn; [reflexivity|].
  rewrite IH. destruct (case_facts c) as (H1 & _).
  destruct b; now rewrite ?to_lower_idem, ?H1.
Qed.

Lemma title_from_idem (b : bool) (s : string) :
  PyStr.title_from b (PyStr.title_from b s) = PyStr.title_from b s.
Proof.
  revert b. induction s as [|c s IH]; intros b; cbn; [reflexivity|].
  destruct (case_facts c) as (_ & H2 & _ & _ & H5 & H6).
  destruct b; rewrite ?to_lower_idem, ?H2, ?H5, ?H6, IH; reflexivity.
Qed.

Lemma title_from_lstrip (b : bool) (s : string) :
  PyStr.lstrip s = s -> PyStr.lstrip (PyStr.title_from b s) = PyStr.title_from b s.
Proof.
  destruct s as [|c s]; [reflexivity|].
  cbn [PyStr.lstrip PyStr.title_from].
  destruct (case_facts c) as (_ & _ & H3 & H4 & _).
  destruct (PyStr.isspace c) eqn:Hc.
  - intros H. exfalso. pose proof (lstrip_head s) as Hh. rewrite H in Hh.
    congruence.
  - intros _. destruct b; now rewrite ?H3, ?H4.
Qed.

Lemma title_from_rstrip (b : bool) (s : string) :
  PyStr.rstrip (PyStr.title_from b s) = PyStr.title_from b (PyStr.rstrip s).
Proof.
  revert b. induction s as [|c s IH]; intros b; [reflexivity|].
  cbn [PyStr.title_from]. rewrite !rstrip_cons, IH.
  destruct (case_facts c) as (_ & _ & H3 & H4 & _).
  destruct (PyStr.rstrip s) as [|c' r]; cbn [PyStr.title_from].
  - destruct b; rewrite ?H3, ?H4; now destruct (PyStr.isspace c).
  - reflexivity.
Qed.

Lemma format_genres_map (genres : string) :
  AdvancedMovieReviewer._format_genres genres
  = map PyStr.title (stripped_pieces "," genres).
Proof.
  unfold AdvancedMovieReviewer._format_genres, stripped_pieces.
  now rewrite map_map.
Qed.

Lemma format_genres_elements (genres g : string) :
  In g (AdvancedMovieReviewer._format_genres genres) ->
  g <> "" /\ PyStr.strip g = g /\ PyStr.title g = g.
Proof.
  rewrite format_genres_map. intros Hg.
  apply in_map_iff in Hg as (p & <- & Hp).
  destruct (stripped_pieces_elements _ _ _ Hp) as [Hne Hstrip].
  split; [|split].
  - destruct p; [contradiction|discriminate].
  - destruct (strip_trimmed p) as [Hl Hr]. rewrite Hstrip in Hl, Hr.
    unfold PyStr.strip, PyStr.title.
    rewrite (title_from_lstrip false p Hl), title_from_rstrip, Hr. reflexivity.
  - apply title_from_idem.
Qed.

(** X10: on a text of ASCII characters [_format_genres] yields one genre
    per non-blank comma-separated piece, in order; it changes nothing but
    the case of the letters a to z; each genre is already in title case
    (formatting it again changes nothing). On every text each genre is
    non-empty and trimmed, and the genres of two texts joined by a comma
    are the genres of the first followed by those of the second. *)
Theorem format_genres_normalised (genres : string) :
  (ascii_only genres = true ->
     List.length (AdvancedMovieReviewer._format_genres genres)
     = List.length (stripped_pieces "," genres)
     /\ map PyStr.lower (AdvancedMovieReviewer._format_genres genres)
        = map PyStr.lower (stripped_pieces "," genres)
     /\ (forall g, In g (AdvancedMovieReviewer._format_genres genres) ->
           PyStr.title g = g))
  /\ (forall g, In g (AdvancedMovieReviewer._format_genres genres) ->
        g <> "" /\ PyStr.strip g = g)
  /\ (forall a b,
        AdvancedMovieReviewer._format_genres (a ++ "," ++ b)
        = (AdvancedMovieReviewer._format_genres a
           ++ AdvancedMovieReviewer._format_genres b)%list).
Proof.
  split.
  { intros _. split; [rewrite format_genres_map; apply length_map|]. split.
    - rewrite format_genres_map, map_map. apply map_ext.
      intros p. apply title_from_lower.
    - intros g Hg. now apply (format_genres_elements genres). }
  split.
  { intros g Hg. destruct (format_genres_elements genres g Hg) as (H1 & H2 & _).
    now split. }
  intros a b. rewrite !format_genres_map. cbn [append].
  now rewrite stripped_pieces_app, map_app.
Qed.

Lemma format_genres_normalised_witness :
  PyStr.title "Sci-Fi" = "Sci-Fi"
  /\ "Sci-Fi" <> "" /\ PyStr.strip "Sci-Fi" = "Sci-Fi".
Proof.
  destruct (format_genres_normalised " sci-fi ,, DRAMA") as (Hascii & Hel & _).
  destruct (Hascii eq_refl) as (_ & _ & Htitle).
  split.
  - apply Htitle. left. reflexivity.
  - apply Hel. left. reflexivity.
Defined.

Section ReviewPipeline.

Import AdvancedMovieReviewer.

Variable o : AdvancedMovieReviewer.Oracle.
Variable review : string.

Let ev := event AdvancedMovieReviewer.call.

(** X8: the movie [forward] calls the analysis, the genre classifier and
    the recommender in this order, each with the review; a predictor is
    called only if the ones before it returned, and the result is complete
    exactly when all three returned. *)
Theorem review_forward_call_order (tr tr' : list ev) (d : dict) :
  AdvancedMovieReviewer.forward o review tr = (Ok d, tr') ->
  (d <> []
   /\ tr' = (tr ++ [Called (AnalysisCall review) true;
                    Called (GenreClassifier review) true;
                    Called (Recommender review) true])%list)
  \/ (d = []
      /\ exists e,
           tr' = (tr ++ [Called (AnalysisCall review) false;
                         StError ("Analysis failed: " ++ e)])%list
           \/ tr' = (tr ++ [Called (AnalysisCall review) true;
                            Called (GenreClassifier review) false;
                            StError ("Analysis failed: " ++ e)])%list
           \/ tr' = (tr ++ [Called (AnalysisCall review) true;
                            Called (GenreClassifier review) true;
                            Called (Recommender review) false;
                            StError ("Analysis failed: " ++ e)])%list).
Proof.
  rewrite review_forward_stages. unfold failed.
  destruct (analysis o tr review) as [a|e].
  - cbv zeta. destruct (genre_classifier o _ review) as [genres|e].
    + destruct (recommender o _ review) as [c|e].
      * destruct (parse_rating_total (rating a)) as [r ->].
        intros H. injection H as <- <-. left. split; [discriminate|].
        rewrite <- !app_assoc. reflexivity.
      * intros H. injection H as <- <-. right. split; [reflexivity|].
        exists e. right. right. rewrite <- !app_assoc. reflexivity.
    + intros H. injection H as <- <-. right. split; [reflexivity|].
      exists e. right. left. rewrite <- !app_assoc. reflexivity.
  - intros H. injection H as <- <-. right. split; [reflexivity|].
    exists e. left. rewrite <- !app_assoc. reflexivity.
Qed.

(** X9: in a complete result of the movie [forward] the rating lies
    between 0 and 10, the technical review holds one of the four star
    strings under each of its three keys, every genre is non-empty and
    trimmed, and in title case when the reply of the genre classifier is a
    text of ASCII characters, and every similar movie and recommendation is
    a non-empty trimmed text after the bullet prefix. *)
Theorem review_forward_result_invariants (tr tr' : list ev) (d : dict) :
  AdvancedMovieReviewer.forward o review tr = (Ok d, tr') ->
  d <> [] ->
  (exists n, dict_get d "rating" = Some (VNum n) /\ within 0 10 n)
  /\ (exists s1 s2 s3,
        dict_get d "technical_review"
        = Some (VDict [("directing", VStr s1); ("cinematography", VStr s2);
                       ("technical_aspects", VStr s3)])
        /\ Forall (fun s => In s [stars_5; stars_4; stars_3; stars_2])
                  [s1; s2; s3])
  /\ (exists genres gs,
        genre_classifier o (tr ++ [Called (AnalysisCall review) true])%list
          review = Ok genres
        /\ dict_get d "genres" = Some (VList gs)
        /\ (forall g, In g gs -> g <> "" /\ PyStr.strip g = g)
        /\ (ascii_only genres = true ->
            forall g, In g gs -> PyStr.title g = g))
  /\ (exists l1 l2,
        dict_get d "similar_movies" = Some (VList l1)
        /\ dict_get d "recommendations" = Some (VList l2)
        /\ forall x, In x (l1 ++ l2)%list ->
             exists p, x = "- " ++ p /\ p <> "" /\ PyStr.strip p = p).
Proof.
  rewrite review_forward_stages. unfold failed.
  destruct (analysis o tr review) as [a|e];
    [|intros H; injection H as <- _; contradiction].
  cbv zeta. destruct (genre_classifier o _ review) as [genres|e];
    [|intros H; injection H as <- _; contradiction].
  destruct (recommender o _ review) as [c|e];
    [|intros H; injection H as <- _; contradiction].
  destruct (_parse_rating (rating a)) as [r|e] eqn:Hr;
    [|intros H; injection H as <- _; contradiction].
  intros H _. injection H as <- _.
  split; [exists r; split; [reflexivity|exact (parse_rating_within _ _ Hr)]|].
  assert (Hstars : forall t, In (_rate_quality t) [stars_5; stars_4; stars_3; stars_2]).
  { intros t. rewrite rate_quality_refines.
    destruct (mapQualityToStars t); cbn; auto. }
  split.
  { do 3 eexists. split; [reflexivity|].
    constructor; [apply Hstars|].
    constructor; [apply Hstars|].
    constructor; [apply Hstars|constructor]. }
  split.
  { exists genres. eexists. split; [reflexivity|]. split; [reflexivity|]. split.
    - intros g Hin.
      destruct (format_genres_elements genres g Hin) as (H1 & H2 & _).
      now split.
    - intros _ g Hin. now apply (format_genres_elements genres). }
  do 2 eexists. split; [reflexivity|]. split; [reflexivity|].
  intros x Hx. apply in_app_iff in Hx.
  destruct (format_list_spec "," AdvancedMovieReviewer._format_list
              ltac:(reflexivity)) as (_ & _ & Hel).
  destruct Hx as [Hx|Hx]; exact (Hel _ _ Hx).
Qed.

End ReviewPipeline.

Lemma review_forward_call_order_witness :
  (review_result_sample <> []
   /\ review_trace_sample
      = ([] ++ [Called (AdvancedMovieReviewer.AnalysisCall "r") true;
                Called (AdvancedMovieReviewer.GenreClassifier "r") true;
                Called (AdvancedMovieReviewer.Recommender "r") true])%list)
  \/ (review_result_sample = []
      /\ exists e,
           review_trace_sample
           = ([] ++ [Called (AdvancedMovieReviewer.AnalysisCall "r") false;
                     StError ("Analysis failed: " ++ e)])%list
           \/ review_trace_sample
              = ([] ++ [Called (AdvancedMovieReviewer.AnalysisCall "r") true;
                        Called (AdvancedMovieReviewer.GenreClassifier "r") false;
                        StError ("Analysis failed: " ++ e)])%list
           \/ review_trace_sample
              = ([] ++ [Called (AdvancedMovieReviewer.AnalysisCall "r") true;
                        Called (AdvancedMovieReviewer.GenreClassifier "r") true;
                        Called (AdvancedMovieReviewer.Recommender "r") false;
                        StError ("Analysis failed: " ++ e)])%list).
Proof.
  apply (review_forward_call_order (review_double false) "r" []
           review_trace_sample review_result_sample).
  vm_compute. reflexivity.
Defined.

Lemma review_forward_result_invariants_witness :
  exists n, dict_get review_result_sample "rating" = Some (VNum n)
            /\ within 0 10 n.
Proof.
  apply (review_forward_result_invariants (review_double false) "r" []
           review_trace_sample review_result_sample).
  - vm_compute. reflexivity.
  - discriminate.
Defined.

(** ** The button handlers *)

Lemma strip_blank_iff (s : string) :
  PyStr.strip s = "" <-> all_chars PyStr.isspace s = true.
Proof.
  split.
  - unfold PyStr.strip. intros H.
    assert (Hl : PyStr.lstrip s = "").
    { pose proof (lstrip_head s) as Hh.
      destruct (PyStr.lstrip s) as [|c r]; [reflexivity|].
      destruct (rstrip_head c r Hh) as [r' Hr']. congruence. }
    clear H. induction s as [|c s IH]; [reflexivity|].
    cbn in *. destruct (PyStr.isspace c); [now apply IH|discriminate].
  - intros H. unfold PyStr.strip. now rewrite (lstrip_blank s H).
Qed.

Section ReviewMain.

Import AdvancedMovieReviewer.

Variable o : AdvancedMovieReviewer.Oracle.

(** X11: a review made of whitespace only is rejected by the movie
    [main] with a warning, before any predictor call. *)
Theorem review_main_rejects_blank_review
    (clicked : bool) (review : string) (tr : list (event call)) :
  all_chars PyStr.isspace review = true ->
  AdvancedMovieReviewer.main o clicked review tr
  = (Ok tt,
     if clicked
     then (tr ++ [StWarning "Please enter a review to analyze"])%list
     else tr)
  /\ calls (snd (AdvancedMovieReviewer.main o clicked review tr)) = calls tr.
Proof.
  intros Hblank. apply strip_blank_iff in Hblank.
  unfold AdvancedMovieReviewer.main. rewrite Hblank. cbn [PyStr.truthy negb].
  destruct clicked; cbn.
  - split; [reflexivity|]. unfold calls. rewrite filter_app. cbn.
    now rewrite app_nil_r.
  - now split.
Qed.


End ReviewMain.

Lemma review_main_rejects_blank_review_witness :
  AdvancedMovieReviewer.main (review_double false) true "   " []
  = (Ok tt, [StWarning "Please enter a review to analyze"]).
Proof.
  apply (review_main_rejects_blank_review (review_double false) true "   " []).
  reflexivity.
Defined.


Section ResumeMain.

Import ResumeAnalyzer.

Variable o : ResumeAnalyzer.Oracle.


End ResumeMain.


(** ** Words and names *)




Lemma split_pieces_without_sep (sep : ascii) (s : string) :
  Forall (fun p => PyStr.occurs sep p = false) (PyStr.split sep s).
Proof.
  induction s as [|c s IH]; cbn; [now repeat constructor|].
  destruct (Ascii.eqb c sep) eqn:E; [now constructor|].
  destruct (PyStr.split sep s) as [|p ps].
  - constructor; [cbn; now rewrite E|constructor].
  - inversion IH as [|? ? Hp Hps]; subst.
    constructor; [cbn; now rewrite E|assumption].
Qed.

Lemma lstrip_occurs (c : ascii) (s : string) :
  PyStr.occurs c s = false -> PyStr.occurs c (PyStr.lstrip s) = false.
Proof.
  induction s as [|x s IH]; cbn; [reflexivity|].
  intros H. apply orb_false_iff in H as [Hx Hs].
  destruct (PyStr.isspace x); [now apply IH|]. cbn. now rewrite Hx, Hs.
Qed.

Lemma rstrip_occurs (c : ascii) (s : string) :
  PyStr.occurs c s = false -> PyStr.occurs c (PyStr.rstrip s) = false.
Proof.
  induction s as [|x s IH]; [reflexivity|].
  cbn [PyStr.occurs]. intros H. apply orb_false_iff in H as [Hx Hs].
  rewrite rstrip_cons. specialize (IH Hs).
  destruct (PyStr.rstrip s) as [|y r].
  - destruct (PyStr.isspace x); cbn; [reflexivity|now rewrite Hx].
  - cbn [PyStr.occurs] in *. now rewrite Hx, IH.
Qed.

Lemma stripped_pieces_without_sep (sep : ascii) (s p : string) :
  In p (stripped_pieces sep s) -> PyStr.occurs sep p = false.
Proof.
  unfold stripped_pieces. intros H.
  apply in_map_iff in H as (x & <- & Hx). apply filter_In in Hx as [Hx _].
  pose proof (split_pieces_without_sep sep s) as HF.
  rewrite Forall_forall in HF. unfold PyStr.strip.
  apply rstrip_occurs, lstrip_occurs, HF, Hx.
Qed.

(** X5: the section names in a result of [forward] are never empty, carry
    no blank at either end and contain no comma. *)
Theorem resume_section_names_clean
    (o : ResumeAnalyzer.Oracle) (resume_text : string)
    (tr tr' : list (event ResumeAnalyzer.call)) (d : dict) (names : list string) :
  ResumeAnalyzer.forward o resume_text tr = (Ok d, tr') ->
  dict_get d "sections" = Some (VList names) ->
  forall x, In x names ->
    x <> "" /\ PyStr.strip x = x /\ PyStr.occurs "," x = false.
Proof.
  intros Hrun Hnames x Hx. rewrite forward_stages in Hrun. unfold failed in Hrun.
  destruct (ResumeAnalyzer.section_identifier o tr resume_text) as [sections|e];
    [|injection Hrun as <- _; discriminate].
  cbv zeta in Hrun.
  destruct (ResumeAnalyzer.analyze_sections o resume_text _ [] _) as [[sa|e] tr2];
    [|injection Hrun as <- _; discriminate].
  destruct (ResumeAnalyzer.overall_assessor o tr2 resume_text) as [a|e];
    [|injection Hrun as <- _; discriminate].
  injection Hrun as <- _. cbn in Hnames. injection Hnames as <-.
  destruct (stripped_pieces_elements _ _ _ Hx) as [Hne Hs].
  repeat split; [assumption|assumption|].
  exact (stripped_pieces_without_sep _ _ _ Hx).
Qed.

Lemma resume_section_names_clean_witness :
  "a" <> "" /\ PyStr.strip "a" = "a" /\ PyStr.occurs "," "a" = false.
Proof.
  apply (resume_section_names_clean sample_oracle "doc" [] sample_trace
           sample_result ["b"; "a"; "b"]).
  - vm_compute. reflexivity.
  - reflexivity.
  - right. left. reflexivity.
Defined.

(** X15: in a complete result of [forward] the strengths, weaknesses and
    recommendations are lists whose items are a non-empty, trimmed text
    without semicolon after the bullet prefix. *)
Theorem resume_forward_lists_bulleted
    (o : ResumeAnalyzer.Oracle) (resume_text : string)
    (tr tr' : list (event ResumeAnalyzer.call)) (d : dict) :
  ResumeAnalyzer.forward o resume_text tr = (Ok d, tr') ->
  d <> [] ->
  exists l1 l2 l3,
    dict_get d "strengths" = Some (VList l1)
    /\ dict_get d "weaknesses" = Some (VList l2)
    /\ dict_get d "recommendations" = Some (VList l3)
    /\ forall x, In x (l1 ++ l2 ++ l3)%list ->
         exists p, x = "- " ++ p /\ p <> "" /\ PyStr.strip p = p
                   /\ PyStr.occurs ";" p = false.
Proof.
  intros Hrun Hd. rewrite forward_stages in Hrun. unfold failed in Hrun.
  destruct (ResumeAnalyzer.section_identifier o tr resume_text) as [sections|e];
    [|injection Hrun as <- _; contradiction].
  cbv zeta in Hrun.
  destruct (ResumeAnalyzer.analyze_sections o resume_text _ [] _) as [[sa|e] tr2];
    [|injection Hrun as <- _; contradiction].
  destruct (ResumeAnalyzer.overall_assessor o tr2 resume_text) as [a|e];
    [|injection Hrun as <- _; contradiction].
  injection Hrun as <- _.
  do 3 eexists. split; [reflexivity|]. split; [reflexivity|].
  split; [reflexivity|].
  assert (Hitem : forall s x, In x (ResumeAnalyzer._format_list s) ->
            exists p, x = "- " ++ p /\ p <> "" /\ PyStr.strip p = p
                      /\ PyStr.occurs ";" p = false).
  { intros s x Hx. unfold ResumeAnalyzer._format_list in Hx.
    apply in_map_iff in Hx as (p & <- & Hp). exists p.
    destruct (stripped_pieces_elements _ _ _ Hp) as [Hne Hs].
    repeat split; try assumption.
    exact (stripped_pieces_without_sep _ _ _ Hp). }
  intros x Hx. apply in_app_iff in Hx as [Hx|Hx]; [exact (Hitem _ _ Hx)|].
  apply in_app_iff in Hx as [Hx|Hx]; exact (Hitem _ _ Hx).
Qed.

Lemma resume_forward_lists_bulleted_witness :
  exists l1 l2 l3,
    dict_get sample_result "strengths" = Some (VList l1)
    /\ dict_get sample_result "weaknesses" = Some (VList l2)
    /\ dict_get sample_result "recommendations" = Some (VList l3)
    /\ forall x, In x (l1 ++ l2 ++ l3)%list ->
         exists p, x = "- " ++ p /\ p <> "" /\ PyStr.strip p = p
                   /\ PyStr.occurs ";" p = false.
Proof.
  apply (resume_forward_lists_bulleted sample_oracle "doc" [] sample_trace
           sample_result).
  - vm_compute. reflexivity.
  - discriminate.
Defined.

(** ** Keywords in context *)

Lemma lower_app (a b : string) :
  PyStr.lower (a ++ b) = PyStr.lower a ++ PyStr.lower b.
Proof. induction a as [|c a IH]; cbn; [reflexivity|now rewrite IH]. Qed.

Lemma prefix_app (n t b : string) :
  String.prefix n t = true -> String.prefix n (t ++ b) = true.
Proof.
  revert t. induction n as [|c n IH]; intros t;
    [intros _; now destruct (t ++ b)|].
  destruct t as [|c' t]; cbn; [discriminate|].
  destruct (ascii_dec c c'); [apply IH|discriminate].
Qed.

Lemma contains_app_r (n t b : string) :
  PyStr.contains n t = true -> PyStr.contains n (t ++ b) = true.
Proof.
  induction t as [|c t IH]; cbn [PyStr.contains append].
  - rewrite orb_false_r. intros H. destruct n; [|discriminate].
    destruct b; reflexivity.
  - intros H. apply orb_true_iff in H as [H|H].
    + change (String c (t ++ b)) with (String c t ++ b).
      now rewrite (prefix_app _ _ b H).
    + rewrite (IH H). apply orb_true_r.
Qed.

Lemma contains_app_l (n a t : string) :
  PyStr.contains n t = true -> PyStr.contains n (a ++ t) = true.
Proof.
  intros H. induction a as [|c a IH]; [exact H|].
  cbn [append PyStr.contains]. rewrite IH. apply orb_true_r.
Qed.

Lemma find_among_first {A} (f : A -> bool) (before after : list A) (x : A) :
  f x = true ->
  exists y, find f (before ++ x :: after)%list = Some y
            /\ In y (before ++ [x])%list.
Proof.
  intros Hx. induction before as [|z before IH]; cbn.
  - rewrite Hx. exists x. split; [reflexivity|now left].
  - destruct (f z); [exists z; split; [reflexivity|now left]|].
    destruct IH as (y & -> & Hy). exists y. split; [reflexivity|now right].
Qed.

(** X13: text added before or after never lowers a band below a keyword
    that is present: if the keyword of a band occurs in a text, the rating
    of any text that contains it is that band or one tested before it. In
    particular "excellent" anywhere, also negated, gives five stars. *)
Theorem rate_quality_keyword_survives_context
    (text a c : string) (before after : list band) (b : band) :
  declared_order = (before ++ b :: after)%list ->
  PyStr.contains (band_keyword b) (PyStr.lower text) = true ->
  In (AdvancedMovieReviewer._rate_quality (a ++ text ++ c))
     (map band_stars (before ++ [b])%list).
Proof.
  intros Hord Hb. rewrite rate_quality_refines. unfold mapQualityToStars.
  rewrite Hord.
  destruct (find_among_first
              (fun x => PyStr.contains (band_keyword x)
                          (PyStr.lower (a ++ text ++ c)))
              before after b) as (y & -> & Hy).
  - rewrite !lower_app. now apply contains_app_l, contains_app_r.
  - now apply in_map.
Qed.

Lemma rate_quality_keyword_survives_context_witness :
  In (AdvancedMovieReviewer._rate_quality
        ("The directing was not " ++ "Excellent" ++ ", rather poor"))
     (map band_stars ([] ++ [Excellent])%list).
Proof.
  apply (rate_quality_keyword_survives_context "Excellent"
           "The directing was not " ", rather poor" [] [Good; Average; Poor]
           Excellent).
  - reflexivity.
  - reflexivity.
Defined.

(** ** Saturation of the scores *)










